(** * pvlib.iotools.mesor: the MESOR file parser

    A shallow embedding of [src/pvlib/iotools/mesor.py] ([read_mesor],
    [parse_mesor], [MESOR_VARIABLE_MAP]) together with the properties the
    specification states about it.

    Layout of the development:
    - [Py]      the Python built-ins the parser calls on [str] and [dict]
                values ([startswith], [split], [join], [replace], [lstrip],
                [rstrip], [float], item assignment on a [dict]);
    - [outcome] what a call does: it returns, raises, or is still inside
                [while True] when the iteration budget is spent;
    - the header loop of [parse_mesor], one iteration per [readline];
    - [Pandas]  the pandas calls the parser makes ([read_csv], column
                selection, [drop], [rename]) and the [Library] of what is
                left open of pandas;
    - [parse_mesor], [read_mesor];
    - the properties. *)

From Stdlib Require Import String Ascii List Bool Arith ZArith NArith Lia.
From Stdlib Require Import DecimalString.
Import ListNotations.

Local Open Scope string_scope.
Local Open Scope list_scope.

(* ------------------------------------------------------------------ *)
(** ** Python built-ins *)

Module Py.

(** [str.isspace] on the ASCII range: TAB, LF, VT, FF, CR, the four
    separators FS GS RS US, and the space.  (Beyond ASCII, Python knows
    further whitespace characters and digits, such as the no-break
    space; the built-ins are written out for ASCII text, and a
    statement that depends on a text being free of whitespace asks for
    an ASCII text.) *)
Definition isspace (c : ascii) : bool :=
  let n := nat_of_ascii c in
  ((9 <=? n)%nat && (n <=? 13)%nat) || ((28 <=? n)%nat && (n <=? 32)%nat).

(** [s.startswith(p)] *)
Fixpoint startswith (s p : string) {struct p} : bool :=
  match p with
  | EmptyString => true
  | String a p' =>
      match s with
      | EmptyString => false
      | String b s' => Ascii.eqb a b && startswith s' p'
      end
  end.

(** The longest prefix of [s] without a separator; [sp] tells which
    characters separate. *)
Fixpoint word (sp : ascii -> bool) (s : string) : string :=
  match s with
  | EmptyString => EmptyString
  | String c r => if sp c then EmptyString else String c (word sp r)
  end.

(** The maximal runs of characters that are no separators, in order.
    [after_sep] tells whether the previous character was a separator (or
    the start of the string), that is, whether a word may start here. *)
Fixpoint split_from (sp : ascii -> bool) (after_sep : bool) (s : string)
  : list string :=
  match s with
  | EmptyString => []
  | String c r =>
      if sp c then split_from sp true r
      else if after_sep then word sp s :: split_from sp false r
      else split_from sp false r
  end.

(** [s.split()]: the separators are the whitespace characters. *)
Definition split (s : string) : list string := split_from isspace true s.

(** [s.split(sep)] for a one-character separator: never empty, empty
    pieces are kept. *)
Fixpoint split_on (sep : ascii) (s : string) : list string :=
  match s with
  | EmptyString => [EmptyString]
  | String c r =>
      if Ascii.eqb c sep then EmptyString :: split_on sep r
      else match split_on sep r with
           | [] => [String c EmptyString]
           | piece :: pieces => String c piece :: pieces
           end
  end.

(** [sep.join(l)] *)
Definition join (sep : string) (l : list string) : string :=
  String.concat sep l.

(** [s.replace(old, new)] for a non-empty [old]: every occurrence, left
    to right, without overlap.  [skip] counts the characters of the
    occurrence just replaced that are still to be passed over. *)
Fixpoint replace_from (old new : string) (skip : nat) (s : string) : string :=
  match s with
  | EmptyString => EmptyString
  | String c r =>
      match skip with
      | S k => replace_from old new k r
      | O =>
          if startswith s old
          then new ++ replace_from old new (String.length old - 1) r
          else String c (replace_from old new 0 r)
      end
  end.

Definition replace (old new s : string) : string :=
  replace_from old new 0 s.

(** [s.lstrip(c)] and [s.rstrip(c)] for a one-character set. *)
Fixpoint lstrip (c : ascii) (s : string) : string :=
  match s with
  | EmptyString => EmptyString
  | String a r => if Ascii.eqb a c then lstrip c r else s
  end.

Fixpoint rstrip (c : ascii) (s : string) : string :=
  match s with
  | EmptyString => EmptyString
  | String a r =>
      match rstrip c r with
      | EmptyString => if Ascii.eqb a c then EmptyString else String a EmptyString
      | r' => String a r'
      end
  end.

(** [s.strip()] *)
Fixpoint lstrip_space (s : string) : string :=
  match s with
  | EmptyString => EmptyString
  | String a r => if isspace a then lstrip_space r else s
  end.

Fixpoint rstrip_space (s : string) : string :=
  match s with
  | EmptyString => EmptyString
  | String a r =>
      match rstrip_space r with
      | EmptyString => if isspace a then EmptyString else String a EmptyString
      | r' => String a r'
      end
  end.

Definition strip (s : string) : string := rstrip_space (lstrip_space s).

(** [s.lower()] on the ASCII letters. *)
Definition lower_char (c : ascii) : ascii :=
  let n := nat_of_ascii c in
  if ((65 <=? n)%nat && (n <=? 90)%nat) then ascii_of_nat (n + 32) else c.

Fixpoint lower (s : string) : string :=
  match s with
  | EmptyString => EmptyString
  | String c r => String (lower_char c) (lower r)
  end.

(** *** Numbers written in decimal

    The value of a Python [float] read from text is kept as the decimal
    that was written: [Dec neg m e] stands for (-1)^neg * m * 10^e.
    Rounding to binary64 is not represented. *)
Inductive pyfloat : Type :=
| Nan
| Inf (neg : bool)
| Dec (neg : bool) (m : N) (e : Z).

Definition digit (c : ascii) : option N :=
  let n := nat_of_ascii c in
  if ((48 <=? n)%nat && (n <=? 57)%nat) then Some (N.of_nat (n - 48)) else None.

(** The rest of a [digitpart], after its first digit:
    [(["_"] digit)*].  Returns the mantissa extended by the digits read, how
    many digits that were, and the unread text.  [underscore] tells
    whether a single underscore between digits is accepted. *)
Fixpoint digits_rest (underscore : bool) (m : N) (k : nat) (s : string)
  : N * nat * string :=
  match s with
  | EmptyString => (m, k, s)
  | String c r =>
      match digit c with
      | Some d => digits_rest underscore (10 * m + d)%N (S k) r
      | None =>
          if underscore && Ascii.eqb c "_" then
            match r with
            | String c2 r2 =>
                match digit c2 with
                | Some d => digits_rest underscore (10 * m + d)%N (S k) r2
                | None => (m, k, s)
                end
            | EmptyString => (m, k, s)
            end
          else (m, k, s)
      end
  end.

(** [digitpart ::= digit (["_"] digit)*], continuing the mantissa [m]. *)
Definition digitpart (underscore : bool) (m : N) (s : string)
  : option (N * nat * string) :=
  match s with
  | String c r =>
      match digit c with
      | Some d => Some (digits_rest underscore (10 * m + d)%N 1 r)
      | None => None
      end
  | EmptyString => None
  end.

(** [sign ::= "+" | "-"], optional. *)
Definition sign (s : string) : bool * string :=
  match s with
  | String "-" r => (true, r)
  | String "+" r => (false, r)
  | _ => (false, s)
  end.

(** [number ::= [digitpart] "." digitpart | digitpart ["."]]:
    mantissa, number of digits after the point, unread text. *)
Definition number (underscore : bool) (s : string) : option (N * nat * string) :=
  match digitpart underscore 0 s with
  | Some (m, _, String "." r) =>
      match digitpart underscore m r with
      | Some (m', k, r') => Some (m', k, r')
      | None => Some (m, 0, r)
      end
  | Some (m, _, r) => Some (m, 0, r)
  | None =>
      match s with
      | String "." r => digitpart underscore 0 r
      | _ => None
      end
  end.

(** [exponent ::= ("e" | "E") [sign] digitpart], optional: when the text
    does not continue with a complete exponent nothing is consumed. *)
Definition exponent (underscore : bool) (s : string) : Z * string :=
  match s with
  | String c r =>
      if Ascii.eqb c "e" || Ascii.eqb c "E" then
        let (neg, r1) := sign r in
        match digitpart underscore 0 r1 with
        | Some (x, _, r2) => ((if neg then - Z.of_N x else Z.of_N x)%Z, r2)
        | None => (0%Z, s)
        end
      else (0%Z, s)
  | EmptyString => (0%Z, s)
  end.

(** [floatnumber ::= number [exponent]], to the end of the text. *)
Definition floatnumber (underscore neg : bool) (s : string) : option pyfloat :=
  match number underscore s with
  | Some (m, k, r) =>
      match exponent underscore r with
      | (x, EmptyString) => Some (Dec neg m (x - Z.of_nat k))
      | _ => None
      end
  | None => None
  end.

(** [float(s)] on a [str]: surrounding whitespace is dropped, then
    [[sign] (floatnumber | "inf" | "infinity" | "nan")], the words in any
    letter case.  [None] is [ValueError]. *)
Definition float (s : string) : option pyfloat :=
  let (neg, body) := sign (strip s) in
  let word := lower body in
  if String.eqb word "inf" || String.eqb word "infinity" then Some (Inf neg)
  else if String.eqb word "nan" then Some Nan
  else floatnumber true neg body.

(** *** [dict] with [str] keys

    A Python [dict] keeps its keys in insertion order; assigning to a key
    that is present replaces the value where it stands. *)
Definition dict (V : Type) : Type := list (string * V).

Fixpoint dict_set {V : Type} (k : string) (v : V) (d : dict V) : dict V :=
  match d with
  | [] => [(k, v)]
  | (k', v') :: r =>
      if String.eqb k' k then (k, v) :: r else (k', v') :: dict_set k v r
  end.

Fixpoint dict_get {V : Type} (k : string) (d : dict V) : option V :=
  match d with
  | [] => None
  | (k', v) :: r => if String.eqb k' k then Some v else dict_get k r
  end.

Definition keys {V : Type} (d : dict V) : list string := map fst d.

(** [x in l] for a list of [str]. *)
Definition mem (x : string) (l : list string) : bool :=
  existsb (String.eqb x) l.

End Py.

(* ------------------------------------------------------------------ *)
(** ** What a call does *)

(** The exceptions that leave [parse_mesor]; the code catches none. *)
Inductive exn : Type :=
| IndexError                 (* a list index past the end *)
| ValueError                 (* [float] of text that is no number,
                                duplicate column names *)
| KeyError (k : string)      (* a column label that is not there *)
| AttributeError             (* [.replace] on a value that is no [str] *)
| EmptyDataError             (* [read_csv]: nothing to build columns from *)
| ParserError (expected line saw : nat)
                             (* [read_csv]: "Expected .. fields in line ..,
                                saw .." *)
| TypeError                  (* [+] on a column that holds no text,
                                [tz_localize] on timestamps that have a
                                zone already *)
| DateParseError             (* [to_datetime] refuses the text *)
| TimeZoneError              (* [tz_localize] refuses the zone *)
| OSError (path : string).   (* [open] *)

(** A call returns a value, raises, or has not left its loop after the
    number of iterations it was allowed. *)
Inductive outcome (A : Type) : Type :=
| Return (a : A)
| Raise (e : exn)
| OutOfFuel.

Arguments Return {A} a.
Arguments Raise {A} e.
Arguments OutOfFuel {A}.

Definition bind {A B : Type} (x : outcome A) (k : A -> outcome B) : outcome B :=
  match x with
  | Return a => k a
  | Raise e => Raise e
  | OutOfFuel => OutOfFuel
  end.

Notation "x <- c ;; k" := (bind c (fun x => k))
  (at level 61, c at next level, right associativity).
Notation "' pat <- c ;; k" :=
  (bind c (fun x => match x with pat => k end))
  (at level 61, pat pattern, c at next level, right associativity).

(** [l[i]] *)
Definition item {A : Type} (l : list A) (i : nat) : outcome A :=
  match nth_error l i with
  | Some x => Return x
  | None => Raise IndexError
  end.

(** [float(s)] *)
Definition float (s : string) : outcome Py.pyfloat :=
  match Py.float s with
  | Some x => Return x
  | None => Raise ValueError
  end.

(* ------------------------------------------------------------------ *)
(** ** The metadata record *)

(** [meta['timezone']] starts as the empty [dict] and becomes a [str]
    when a [#timezone] line is read. *)
Inductive tz_value : Type :=
| TzEmptyDict
| TzStr (s : string).

(** A value stored under [meta['instruments'][id][param]]. *)
Inductive param_value : Type :=
| PStr (s : string)
| PFloat (x : Py.pyfloat).

Record Meta : Type := mkMeta {
  meta_IPR : Py.dict string;
  meta_location : Py.dict string;
  meta_spectral : Py.dict string;
  meta_comments : list string;
  meta_timezone : tz_value;
  meta_instruments : Py.dict (Py.dict param_value);
  meta_channels : Py.dict string;
  meta_format : option string
}.

(** [{'IPR': {}, 'location': {}, 'spectral': {}, 'comments': [],
     'timezone': {}, 'instruments': {}, 'channels': {}}]; the key
    ['format'] is added by the next statement. *)
Definition meta0 : Meta :=
  mkMeta [] [] [] [] TzEmptyDict [] [] None.

Definition set_IPR (v : Py.dict string) (m : Meta) : Meta :=
  mkMeta v (meta_location m) (meta_spectral m) (meta_comments m)
         (meta_timezone m) (meta_instruments m) (meta_channels m)
         (meta_format m).
Definition set_location (v : Py.dict string) (m : Meta) : Meta :=
  mkMeta (meta_IPR m) v (meta_spectral m) (meta_comments m)
         (meta_timezone m) (meta_instruments m) (meta_channels m)
         (meta_format m).
Definition set_spectral (v : Py.dict string) (m : Meta) : Meta :=
  mkMeta (meta_IPR m) (meta_location m) v (meta_comments m)
         (meta_timezone m) (meta_instruments m) (meta_channels m)
         (meta_format m).
Definition set_comments (v : list string) (m : Meta) : Meta :=
  mkMeta (meta_IPR m) (meta_location m) (meta_spectral m) v
         (meta_timezone m) (meta_instruments m) (meta_channels m)
         (meta_format m).
Definition set_timezone (v : tz_value) (m : Meta) : Meta :=
  mkMeta (meta_IPR m) (meta_location m) (meta_spectral m) (meta_comments m)
         v (meta_instruments m) (meta_channels m) (meta_format m).
Definition set_instruments (v : Py.dict (Py.dict param_value)) (m : Meta) : Meta :=
  mkMeta (meta_IPR m) (meta_location m) (meta_spectral m) (meta_comments m)
         (meta_timezone m) v (meta_channels m) (meta_format m).
Definition set_channels (v : Py.dict string) (m : Meta) : Meta :=
  mkMeta (meta_IPR m) (meta_location m) (meta_spectral m) (meta_comments m)
         (meta_timezone m) (meta_instruments m) v (meta_format m).
Definition set_format (v : string) (m : Meta) : Meta :=
  mkMeta (meta_IPR m) (meta_location m) (meta_spectral m) (meta_comments m)
         (meta_timezone m) (meta_instruments m) (meta_channels m) (Some v).

(* ------------------------------------------------------------------ *)
(** ** The header loop *)

(** A text stream: the lines not yet read, each as [readline] hands it
    out, that is with its newline. *)
Definition stream : Type := list string.

(** [fbuf.readline()]: the next line, or the empty [str] once the stream
    is exhausted (and again on every later call). *)
Definition readline (fbuf : stream) : string * stream :=
  match fbuf with
  | [] => (EmptyString, [])
  | l :: rest => (l, rest)
  end.

Definition newline : ascii := ascii_of_nat 10.
Definition carriage_return : ascii := ascii_of_nat 13.

(** The lines a stream opened on a text with [open(filename, 'r')] hands
    out, each up to and including its newline; the last one may lack
    it.  In this mode a line ends at LF, at CR LF or at a CR alone, and
    each of the three is handed out as LF. *)
Fixpoint file_lines (text : string) : stream :=
  match text with
  | EmptyString => []
  | String c r =>
      if Ascii.eqb c newline then String newline EmptyString :: file_lines r
      else if Ascii.eqb c carriage_return then
        match r with
        | String c' _ =>
            if Ascii.eqb c' newline then file_lines r
            else String newline EmptyString :: file_lines r
        | EmptyString => [String newline EmptyString]
        end
      else match file_lines r with
           | [] => [String c EmptyString]
           | l :: ls => String c l :: ls
           end
  end.

(** The names that follow the first one ([l[1:]]) and so on. *)
Definition from (i : nat) (l : list string) : list string := skipn i l.

(** Line 136, before its [.split(':')[0]]: the description that follows
    the instrument id. *)
Definition instrument_description (line : string) : string :=
  Py.join " " (from 3 (Py.split line)).

(** Line 140: what follows the first colon of the line, with its
    whitespace runs collapsed to one space and none at either end. *)
Definition param_value_text (line : string) : string :=
  Py.join " " (Py.split (Py.join ":" (from 1 (Py.split_on ":" line)))).

(** How one iteration of [while True] ends. *)
Inductive step : Type :=
| Next (meta : Meta) (names : list string)
| Break.

(** The branch for a [#comment instrument] line: lines 135 to 143. *)
Definition instrument_line (line : string) (meta : Meta) (names : list string)
  : outcome step :=
  instrument_id <- item (Py.split line) 2 ;;
  instrument_param <-
    item (Py.split_on ":" (instrument_description line)) 0 ;;
  let instruments :=
    match Py.dict_get instrument_id (meta_instruments meta) with
    | Some _ => meta_instruments meta
    | None => Py.dict_set instrument_id [] (meta_instruments meta)
    end in
  let text := param_value_text line in
  param_value <-
    (if Py.mem instrument_param ["mult_cc"; "off_cc"; "sensitivity"]
     then x <- float text ;; Return (PFloat x)
     else Return (PStr text)) ;;
  let params :=
    match Py.dict_get instrument_id instruments with
    | Some d => d
    | None => []
    end in
  Return (Next (set_instruments
                  (Py.dict_set instrument_id
                     (Py.dict_set instrument_param param_value params)
                     instruments) meta) names).

(** The body of the loop for the line just read: the [if]/[elif] chain
    of [parse_mesor], first match wins, no [else].  In an assignment
    [d[k] = v] Python evaluates [v] before [k]. *)
Definition header_line (line : string) (meta : Meta) (names : list string)
  : outcome step :=
  if Py.startswith line "#comment -" then
    Return (Next meta names)
  else if Py.startswith line "#IPR" then
    let v := Py.join " " (from 1 (Py.split line)) in
    t <- item (Py.split line) 0 ;;
    Return (Next (set_IPR (Py.dict_set (Py.replace "#IPR." "" t) v
                                       (meta_IPR meta)) meta) names)
  else if Py.startswith line "#timezone" then
    t <- item (Py.split line) 1 ;;
    Return (Next (set_timezone (TzStr t) meta) names)
  else if Py.startswith line "#location" then
    v <- item (Py.split line) 1 ;;
    p <- item (Py.split_on "." line) 1 ;;
    t <- item (Py.split p) 0 ;;
    Return (Next (set_location (Py.dict_set (Py.replace ":" "" t) v
                                            (meta_location meta)) meta) names)
  else if Py.startswith line "#spectral" then
    let v := Py.join " " (from 1 (Py.split line)) in
    p <- item (Py.split_on "." line) 1 ;;
    t <- item (Py.split p) 0 ;;
    Return (Next (set_spectral (Py.dict_set t v (meta_spectral meta)) meta)
                 names)
  else if Py.startswith line "#channel" then
    let v := Py.join " " (from 2 (Py.split line)) in
    c <- item (Py.split line) 1 ;;
    Return (Next (set_channels (Py.dict_set c v (meta_channels meta)) meta)
                 (names ++ [c]))
  else if Py.startswith line "#comment instrument" then
    instrument_line line meta names
  else if Py.startswith line "#comment" then
    Return (Next (set_comments
                    (meta_comments meta
                       ++ [Py.join " " (from 1 (Py.split line))]) meta) names)
  else if Py.startswith line "#begindata" then
    Return Break
  else
    Return (Next meta names).

(** [while True: line = fbuf.readline().rstrip('\n'); ...], run for at
    most [fuel] iterations.  On [break] the loop hands over the metadata,
    the column names and the stream positioned after the line read
    last. *)
Fixpoint header_loop (fuel : nat) (fbuf : stream) (meta : Meta)
         (names : list string) : outcome (Meta * list string * stream) :=
  match fuel with
  | O => OutOfFuel
  | S fuel' =>
      let (raw, fbuf') := readline fbuf in
      s <- header_line (Py.rstrip newline raw) meta names ;;
      match s with
      | Next meta' names' => header_loop fuel' fbuf' meta' names'
      | Break => Return (meta, names, fbuf')
      end
  end.

(** Lines 110 to 148: the first line gives [meta['format']], then the
    loop runs. *)
Definition read_header (fuel : nat) (fbuf : stream)
  : outcome (Meta * list string * stream) :=
  let names := [] in
  let meta := meta0 in
  let (first, fbuf) := readline fbuf in
  let meta := set_format (Py.lstrip "#" (Py.rstrip newline first)) meta in
  header_loop fuel fbuf meta names.

Definition nl (s : string) : string := s ++ String newline EmptyString.

(* ------------------------------------------------------------------ *)
(** ** The pandas calls

    pandas is a library the parser calls; its code is not part of the
    repository.  What the parser relies on is written out here from the
    pandas documentation of [read_csv], [DataFrame.__getitem__],
    [DataFrame.drop] and [DataFrame.rename]: the lines that are rows,
    their fields, the columns and the texts read as missing.

    Left open, and taken as a [Library] that the parser is stated for
    any behaviour of: which texts pandas reads as a 64-bit integer or as
    a double and when such a double equals a number of [na_values]; what
    [+] makes of a column ([TypeError] when the column holds no text);
    and, below, [to_datetime] and [tz_localize], which depend on date
    formats and on the time zone database. *)

Module Pandas.

(** A cell of the table.  [Field t] is the value read from the text [t];
    [NaN] is the missing-value marker.  Whether pandas stores that value
    as an integer, a double, a truth value or a text is decided per
    column; it is represented below as far as the missing values depend
    on it. *)
Inductive cell : Type :=
| NaN
| Field (text : string).

(** The row labels.  [DefaultIndex] is the one [read_csv] builds;
    [DatetimeIndex stamps tz] has one timestamp per row and is
    timezone-naive when [tz] is [None]. *)
Inductive Index (T : Type) : Type :=
| DefaultIndex
| DatetimeIndex (stamps : list T) (tz : option string).

Arguments DefaultIndex {T}.
Arguments DatetimeIndex {T} stamps tz.

(** A table: its columns left to right, each with its label and its
    cells top to bottom, and its index. *)
Record DataFrame (T : Type) : Type := mkFrame {
  columns : list (string * list cell);
  index : Index T
}.

Arguments mkFrame {T} columns index.
Arguments columns {T} d.
Arguments index {T} d.

Definition labels {T : Type} (data : DataFrame T) : list string :=
  map fst (columns data).

(** What is left open of the reader and of the columns:
    - [reads_int64 t], [reads_double t]: the text [t] is read as a 64-bit
      integer, as a double;
    - [double_equals t x]: [t] is read as a double, and that double is
      the one the number [x] is stored as;
    - [series_add_str column s] and [series_add column column'] are
      [column + s] and [column + column']: the resulting column, or
      nothing when the addition raises [TypeError] (as it does on a
      column of numbers). *)
Record Library : Type := mkLibrary {
  reads_int64 : string -> bool;
  reads_double : string -> bool;
  double_equals : string -> Py.pyfloat -> bool;
  series_add_str : list cell -> string -> option (list cell);
  series_add : list cell -> list cell -> option (list cell)
}.

(** *** [read_csv(fbuf, header=None, names=names, delim_whitespace=True,
        comment='#', na_values=...)] *)

(** With [delim_whitespace=True] fields are separated by runs of spaces
    and tabs. *)
Definition blank (c : ascii) : bool :=
  let n := nat_of_ascii c in
  (n =? 32)%nat || (n =? 9)%nat.

(** [comment='#']: the rest of the line from the comment character on is
    not parsed. *)
Fixpoint before (c : ascii) (s : string) : string :=
  match s with
  | EmptyString => EmptyString
  | String a r => if Ascii.eqb a c then EmptyString else String a (before c r)
  end.

Fixpoint all (p : ascii -> bool) (s : string) : bool :=
  match s with
  | EmptyString => true
  | String c r => p c && all p r
  end.

(** A line of the stream without the newline that ends it. *)
Definition body (line : string) : string := Py.rstrip newline line.

Definition quote : ascii := ascii_of_nat 34.

(** The data the reader is written out for: a line holds no quote
    character and no carriage return, and a newline only as its last
    character, which none but the last line may lack.  (A quote starts
    a quoted field and a carriage return ends a row; neither is
    represented.) *)
Definition plain_line (line : string) : bool :=
  all (fun c => negb (Ascii.eqb c quote || Ascii.eqb c carriage_return
                      || Ascii.eqb c newline))
      (body line).

Fixpoint plain_data (fbuf : list string) : bool :=
  match fbuf with
  | [] => true
  | l :: rest =>
      plain_line l
      && (String.eqb l (body l ++ String newline EmptyString)%string
          || match rest with
             | [] => String.eqb l (body l)
             | _ => false
             end)
      && plain_data rest
  end.

(** The lines that are no rows ([skip_blank_lines=True], [comment='#']):
    an empty line, a line of blanks only, and a line whose first
    character is the comment character. *)
Definition skipped (line : string) : bool :=
  match body line with
  | EmptyString => true
  | String c _ => Ascii.eqb c "#" || all blank (body line)
  end.

(** The fields of a line.  A line that is not skipped may have none: a
    comment after leading blanks. *)
Definition fields (line : string) : list string :=
  Py.split_from blank true (before "#" (body line)).

(** The lines of the stream that are rows, each with its line number
    counted from [line] and its fields. *)
Fixpoint rows_from (line : nat) (fbuf : list string)
  : list (nat * list string) :=
  match fbuf with
  | [] => []
  | l :: rest =>
      if skipped l then rows_from (S line) rest
      else (line, fields l) :: rows_from (S line) rest
  end.

(** The texts that are read as missing whatever [na_values] says
    ([keep_default_na=True]). *)
Definition default_na : list string :=
  [""; "#N/A"; "#N/A N/A"; "#NA"; "-1.#IND"; "-1.#QNAN"; "-NaN"; "-nan";
   "1.#IND"; "1.#QNAN"; "<NA>"; "N/A"; "NA"; "NULL"; "NaN"; "None";
   "n/a"; "nan"; "null"].

(** A number of the [na_values] list as Python holds it: an [int], or a
    [float] with the text [str] gives for it. *)
Inductive na_value : Type :=
| NaInt (z : Z)
| NaFloat (repr : string) (x : Py.pyfloat).

(** [str(z)] *)
Definition str_int (z : Z) : string := NilZero.string_of_int (Z.to_int z).

(** [float(z)] *)
Definition of_int (z : Z) : Py.pyfloat :=
  Py.Dec (z <? 0)%Z (Z.to_N (Z.abs z)) 0.

(** [int(x)]: the digits after the point are dropped. *)
Definition truncated (x : Py.pyfloat) : option Z :=
  match x with
  | Py.Dec neg m e =>
      let a := if (0 <=? e)%Z then (Z.of_N m * 10 ^ e)%Z
               else (Z.of_N m / 10 ^ (- e))%Z in
      Some (if neg then (- a)%Z else a)
  | _ => None
  end.

(** [x == int(x)] *)
Definition integral (x : Py.pyfloat) : bool :=
  match x with
  | Py.Dec _ m e =>
      (0 <=? e)%Z || (Z.of_N m mod 10 ^ (- e) =? 0)%Z
  | _ => false
  end.

(** The texts that are read as missing on account of [na_values].  For
    every number [x] of the list pandas takes [str(x)], for a whole
    number also [str(int(x))] and the same with [.0] appended, and in
    any case [str(int(x))]: the number cut off at the point. *)
Definition na_strings (na_values : list na_value) : list string :=
  flat_map (fun v =>
              match v with
              | NaInt z => [str_int z; (str_int z ++ ".0")%string]
              | NaFloat repr x =>
                  repr :: match truncated x with
                          | Some z =>
                              (if integral x then [(str_int z ++ ".0")%string]
                               else [])
                                ++ [str_int z]
                          | None => []
                          end
              end) na_values.

(** The numbers that are read as missing in a column of doubles: the
    numbers of the list and, again, each of them cut off at the point. *)
Definition na_numbers (na_values : list na_value) : list Py.pyfloat :=
  flat_map (fun v =>
              match v with
              | NaInt z => [of_int z]
              | NaFloat _ x =>
                  match x with
                  | Py.Nan => []
                  | _ => x :: match truncated x with
                              | Some z => [of_int z]
                              | None => []
                              end
                  end
              end) na_values.

(** A text that is read as missing in every column: one of the texts
    pandas always reads so, or one of those it derives from
    [na_values]. *)
Definition is_missing (strings : list string) (t : string) : bool :=
  Py.mem t (default_na ++ strings).

(** A column is stored as integers when every text of it that is not
    missing is read as an integer; failing that, as doubles when every
    such text is read as a double; any other column keeps its texts. *)
Definition column_of_integers (pd : Library) (strings texts : list string)
  : bool :=
  forallb (fun t => is_missing strings t || reads_int64 pd t) texts.

Definition column_of_doubles (pd : Library) (strings texts : list string)
  : bool :=
  negb (column_of_integers pd strings texts)
  && forallb (fun t => is_missing strings t || reads_double pd t) texts.

(** The cells of a column, from the texts the rows have at its position
    (the empty text where a row has none).  A missing text gives the
    missing marker in every column; in a column of doubles a text equal
    to one of the missing numbers gives it too.  Every other cell holds
    the value read from its text. *)
Definition convert (pd : Library) (strings : list string)
           (numbers : list Py.pyfloat) (texts : list string) : list cell :=
  map (fun t => if is_missing strings t
                   || (column_of_doubles pd strings texts
                       && existsb (double_equals pd t) numbers)
                then NaN else Field t) texts.

(** Column [names[j]], [names[j+1]], ... : the [j]-th named column takes
    field [lead + j] of every row. *)
Fixpoint build_columns (pd : Library) (na_values : list na_value)
         (lead j : nat) (names : list string) (rows : list (nat * list string))
  : list (string * list cell) :=
  match names with
  | [] => []
  | name :: names' =>
      (name, convert pd (na_strings na_values) (na_numbers na_values)
                     (map (fun r => nth (lead + j) (snd r) EmptyString) rows))
        :: build_columns pd na_values lead (S j) names' rows
  end.

Fixpoint has_duplicates (l : list string) : bool :=
  match l with
  | [] => false
  | x :: r => Py.mem x r || has_duplicates r
  end.

(** The number of fields the table is read with: one per name, or the
    fields of the first row when that has more. *)
Definition width (rows : list (nat * list string)) (names : list string)
  : nat :=
  match rows with
  | [] => List.length names
  | (_, first) :: _ => Nat.max (List.length names) (List.length first)
  end.

(** The leading fields, those beyond one per name, go to the index. *)
Definition leading (rows : list (nat * list string)) (names : list string)
  : nat :=
  width rows names - List.length names.

Definition too_long (w : nat) (r : nat * list string) : bool :=
  (w <? List.length (snd r))%nat.

(** - duplicate [names] are refused ([ValueError]);
    - without any row the result is an empty table with the given
      columns, or [EmptyDataError] when there are no names either;
    - a first row with more fields than names gives its leading fields
      to the index and the rest to the named columns;
    - a later row with more fields than the table is wide is an error
      that tells the expected count, the line and the count seen;
    - a row with fewer fields is completed with missing cells. *)
Definition read_csv {T : Type} (pd : Library) (fbuf : list string)
           (names : list string) (na_values : list na_value)
  : outcome (DataFrame T) :=
  if has_duplicates names then Raise ValueError
  else
    let rows := rows_from 1 fbuf in
    match rows, names with
    | [], [] => Raise EmptyDataError
    | _, _ =>
        match find (too_long (width rows names)) (tl rows) with
        | Some (line, fs) =>
            Raise (ParserError (width rows names) line (List.length fs))
        | None =>
            Return (mkFrame
                      (build_columns pd na_values (leading rows names) 0
                                     names rows)
                      DefaultIndex)
        end
    end.

(** *** [data[label]] *)
Fixpoint lookup (label : string) (cols : list (string * list cell))
  : option (list cell) :=
  match cols with
  | [] => None
  | (l, c) :: r => if String.eqb l label then Some c else lookup label r
  end.

Definition getitem {T : Type} (data : DataFrame T) (label : string)
  : outcome (list cell) :=
  match lookup label (columns data) with
  | Some c => Return c
  | None => Raise (KeyError label)
  end.

(** *** [series + ' '] and [series + series] *)
Definition add_str (pd : Library) (a : list cell) (s : string)
  : outcome (list cell) :=
  match series_add_str pd a s with
  | Some c => Return c
  | None => Raise TypeError
  end.

Definition add (pd : Library) (a b : list cell) : outcome (list cell) :=
  match series_add pd a b with
  | Some c => Return c
  | None => Raise TypeError
  end.

(** *** [data.index = idx] *)
Definition set_index {T : Type} (data : DataFrame T) (idx : Index T)
  : DataFrame T :=
  mkFrame (columns data) idx.

(** *** [data.drop(columns=ls)]: every label must be there. *)
Definition drop {T : Type} (data : DataFrame T) (ls : list string)
  : outcome (DataFrame T) :=
  match find (fun l => negb (Py.mem l (labels data))) ls with
  | Some l => Raise (KeyError l)
  | None =>
      Return (mkFrame (filter (fun c => negb (Py.mem (fst c) ls))
                              (columns data))
                      (index data))
  end.

(** *** [data.rename(columns=mapper)]: a label that is a key of the
        mapper is replaced by its value, any other label stays. *)
Definition rename_label (mapper : Py.dict string) (l : string) : string :=
  match Py.dict_get l mapper with
  | Some l' => l'
  | None => l
  end.

Definition rename {T : Type} (data : DataFrame T) (mapper : Py.dict string)
  : DataFrame T :=
  mkFrame (map (fun c => (rename_label mapper (fst c), snd c)) (columns data))
          (index data).

End Pandas.

Import Pandas.

(* ------------------------------------------------------------------ *)
(** ** [mesor.py] *)

Definition MESOR_VARIABLE_MAP : Py.dict string :=
  [("t_air", "temp_air"); ("rh", "relative_humidity"); ("ws", "wind_speed");
   ("wd", "wind_direction"); ("bp", "air_pressure"); ("GHI", "ghi");
   ("DNI", "dni"); ("DHI", "dhi")].

(** [na_values=[-9999, -999.9]] *)
Definition na_values : list na_value :=
  [NaInt (-9999); NaFloat "-999.9" (Py.Dec true 9999 (-1))].

(** [meta['timezone'].replace('UTC+', 'Etc/GMT+')
                     .replace('UTC-', 'Etc/GMT-')] *)
Definition tz_name (timezone : string) : string :=
  Py.replace "UTC-" "Etc/GMT-" (Py.replace "UTC+" "Etc/GMT+" timezone).

Section Parser.

Variable pd : Library.

(** The two pandas calls left open besides [pd]: [to_datetime] turns the
    combined date and time texts into timestamps, together with their
    zone when the texts carry a UTC offset (timezone-naive timestamps
    otherwise), or refuses them; [tz_localize] attaches a zone to naive
    timestamps or refuses the zone. *)
Variable Timestamp : Type.
Variable to_datetime : list cell -> option (list Timestamp * option string).
Variable tz_localize : list Timestamp -> string -> option (list Timestamp).

(** Line 153, right of the [=]:
    [pd.to_datetime(data['date'] + ' ' + data['time'])], evaluated left
    to right. *)
Definition date_time_index (data : DataFrame Timestamp)
  : outcome (Index Timestamp) :=
  date <- getitem data "date" ;;
  date <- add_str pd date " " ;;
  time <- getitem data "time" ;;
  series <- add pd date time ;;
  match to_datetime series with
  | Some (stamps, zone) => Return (DatetimeIndex stamps zone)
  | None => Raise DateParseError
  end.

(** [index.tz_localize(tz)]: timestamps that have a zone already are
    refused with [TypeError]. *)
Definition localize (idx : Index Timestamp) (tz : string)
  : outcome (Index Timestamp) :=
  match idx with
  | DatetimeIndex stamps None =>
      match tz_localize stamps tz with
      | Some localized => Return (DatetimeIndex localized (Some tz))
      | None => Raise TimeZoneError
      end
  | DatetimeIndex _ (Some _) => Raise TypeError
  | DefaultIndex => Raise AttributeError
  end.

(** Lines 153 to 159: the index, the time zone, the two columns. *)
Definition index_and_zone (data : DataFrame Timestamp) (meta : Meta)
  : outcome (DataFrame Timestamp) :=
  idx <- date_time_index data ;;
  let data := set_index data idx in
  match meta_timezone meta with
  | TzEmptyDict => Raise AttributeError
  | TzStr timezone =>
      if String.eqb timezone "TST" then Return data
      else
        let tz := tz_name timezone in
        idx <- localize (index data) tz ;;
        let data := set_index data idx in
        drop data ["date"; "time"]
  end.

Definition parse_mesor (fuel : nat) (fbuf : stream) (map_variables : bool)
  : outcome (DataFrame Timestamp * Meta) :=
  ' (meta, names, fbuf) <- read_header fuel fbuf ;;
  data <- read_csv pd fbuf names na_values ;;
  data <- index_and_zone data meta ;;
  let data := if map_variables then rename data MESOR_VARIABLE_MAP
              else data in
  Return (data, meta).

(** [open(filename, 'r')] on a file system that maps a path to the text
    of the file there, if any. *)
Variable file_system : string -> option string.

Definition open (filename : string) : outcome stream :=
  match file_system filename with
  | Some text => Return (file_lines text)
  | None => Raise (OSError filename)
  end.

Definition read_mesor (fuel : nat) (filename : string) (map_variables : bool)
  : outcome (DataFrame Timestamp * Meta) :=
  fbuf <- open filename ;;
  content <- parse_mesor fuel fbuf map_variables ;;
  Return content.

End Parser.

(* ------------------------------------------------------------------ *)
(** ** Notions the properties are stated with *)

(** The lines the header loop reads before the one that starts with
    [#begindata]. *)
Fixpoint header_lines (fbuf : stream) : list string :=
  match fbuf with
  | [] => []
  | l :: rest =>
      if Py.startswith (Py.rstrip newline l) "#begindata" then []
      else l :: header_lines rest
  end.

(** Whether some line of the stream starts with [#begindata]. *)
Definition has_begindata (fbuf : stream) : bool :=
  existsb (fun l => Py.startswith (Py.rstrip newline l) "#begindata") fbuf.

(** The keys of a [dict] filled by assigning to the keys [l] in turn:
    each key where it was seen first. *)
Definition first_seen (l : list string) : list string :=
  fold_left (fun seen k => if Py.mem k seen then seen else seen ++ [k]) l [].

(** A text made of decimal digits only. *)
Fixpoint all_digits (s : string) : bool :=
  match s with
  | EmptyString => true
  | String c r =>
      match Py.digit c with
      | Some _ => all_digits r
      | None => false
      end
  end.

(** [meta['instruments'][id][param]], if both keys are there. *)
Definition instrument_value (meta : Meta) (id param : string)
  : option param_value :=
  match Py.dict_get id (meta_instruments meta) with
  | Some d => Py.dict_get param d
  | None => None
  end.

(** The dictionary read from value to key. *)
Definition reverse_map (m : Py.dict string) : Py.dict string :=
  map (fun kv => (snd kv, fst kv)) m.

(** The labels that are neither [date] nor [time]. *)
Definition without_date_time (l : list string) : list string :=
  filter (fun x => negb (Py.mem x ["date"; "time"])) l.

(** The columns [drop(columns=['date', 'time'])] keeps. *)
Definition not_date_time (c : string * list cell) : bool :=
  negb (Py.mem (fst c) ["date"; "time"]).

(** A line of the data section that is a row, in the words of the
    reader's documentation: a line that is not empty, does not start
    with the comment character and is not made of blanks only. *)
Definition is_row (line : string) : bool :=
  negb (String.eqb (body line) EmptyString)
  && negb (Py.startswith (body line) "#")
  && negb (all blank (body line)).

(** The lines of the data section that are rows. *)
Definition data_lines (fbuf : stream) : list string := filter is_row fbuf.

(** The row that line [k] of the data section is, counted from 0: the
    number of rows before it. *)
Definition row_index (fbuf : stream) (k : nat) : nat :=
  List.length (data_lines (firstn k fbuf)).

Definition has_zone (zone : option string) : bool :=
  match zone with
  | Some _ => true
  | None => false
  end.

(** An index of timestamps without a zone. *)
Definition naive {T : Type} (idx : Index T) : bool :=
  match idx with
  | DatetimeIndex _ None => true
  | _ => false
  end.

(** The texts the rows of the data section have at the position of the
    [j]-th column name. *)
Definition column_texts (rest : stream) (names : list string) (j : nat)
  : list string :=
  map (fun r => nth (leading (rows_from 1 rest) names + j) (snd r) EmptyString)
      (rows_from 1 rest).


(** The timestamps and the zone [to_datetime] makes of the columns
    [date] and [time] of a table: of [date + ' ' + time]. *)
Definition timestamps_of {T : Type} (pd : Library)
           (to_datetime : list cell -> option (list T * option string))
           (data : DataFrame T) (stamps : list T) (zone : option string)
  : Prop :=
  exists date date' time series,
    lookup "date" (columns data) = Some date
    /\ series_add_str pd date " " = Some date'
    /\ lookup "time" (columns data) = Some time
    /\ series_add pd date' time = Some series
    /\ to_datetime series = Some (stamps, zone).

(** The wrapper as the specification words it: open the file at the
    path, hand the parser the stream, return its result. *)
Definition open_then_parse {T : Type}
           (parse : stream -> outcome T)
           (file_system : string -> option string) (filename : string)
  : outcome T :=
  match file_system filename with
  | Some text => parse (file_lines text)
  | None => Raise (OSError filename)
  end.

(* ------------------------------------------------------------------ *)
(** ** One behaviour of the open calls, and files to run the parser on *)

(** [pattern] with [d] standing for any digit. *)
Fixpoint matches (pattern s : string) : bool :=
  match pattern, s with
  | EmptyString, EmptyString => true
  | String p pattern', String c s' =>
      (if Ascii.eqb p "d"
       then match Py.digit c with Some _ => true | None => false end
       else Ascii.eqb p c)
      && matches pattern' s'
  | _, _ => false
  end.

(** The number a text denotes, when it is written as a decimal number. *)
Definition number_of (text : string) : option Py.pyfloat :=
  let (neg, body) := Py.sign text in
  Py.floatnumber false neg body.

Definition scaled (m : N) (e lo : Z) : Z := (Z.of_N m * 10 ^ (e - lo))%Z.

(** Two decimals denote the same number. *)
Definition same_number (a b : Py.pyfloat) : bool :=
  match a, b with
  | Py.Dec n1 m1 e1, Py.Dec n2 m2 e2 =>
      let lo := Z.min e1 e2 in
      (scaled m1 e1 lo =? scaled m2 e2 lo)%Z
      && (Bool.eqb n1 n2 || (m1 =? 0)%N)
  | _, _ => false
  end.

(** A whole number of at most 18 digits, with or without a sign. *)
Definition whole_number (text : string) : bool :=
  let (_, digits) := Py.sign text in
  negb (String.eqb digits EmptyString) && all_digits digits
  && (String.length digits <=? 18)%nat.

Definition is_number (c : cell) : bool :=
  match c with
  | NaN => true
  | Field t => match number_of t with Some _ => true | None => false end
  end.

Definition is_truth_value (c : cell) : bool :=
  match c with
  | NaN => true
  | Field t => Py.mem t ["True"; "TRUE"; "true"; "False"; "FALSE"; "false"]
  end.

(** A column holds text when it has no row, or a cell that is no number
    together with a cell that is no truth value. *)
Definition holds_text (a : list cell) : bool :=
  match a with
  | [] => true
  | _ => negb (forallb is_number a) && negb (forallb is_truth_value a)
  end.

(** [+] on columns that hold text, cell by cell; a missing cell stays
    missing.  A text cannot be added to a column of numbers, nor a
    number to a text. *)
Definition text_add_str (a : list cell) (s : string) : option (list cell) :=
  if holds_text a
  then Some (map (fun c => match c with
                           | Field t => Field (t ++ s)
                           | NaN => NaN
                           end) a)
  else None.

Definition text_add (a b : list cell) : option (list cell) :=
  if holds_text b
     || forallb (fun p => match p with
                          | (Field _, Field _) => false
                          | _ => true
                          end) (combine a b)
  then Some (map (fun p => match p with
                           | (Field s, Field t) => Field (s ++ t)
                           | _ => NaN
                           end) (combine a b))
  else None.

(** A library that reads numbers written in decimal and compares them
    as the decimals they are. *)
Definition decimals : Library :=
  mkLibrary whole_number
            (fun t => match number_of t with Some _ => true | None => false end)
            (fun t x => match number_of t with
                        | Some y => same_number y x
                        | None => false
                        end)
            text_add_str text_add.

(** A [to_datetime] that accepts the ISO texts [YYYY-MM-DD HH:MM:SS] and
    [YYYY-MM-DD HH:MM], which give naive timestamps, and
    [YYYY-MM-DD HH:MM:SS+HH:MM] (or [-HH:MM]), which give timestamps in
    the zone of that offset; it keeps the text as the timestamp and
    gives [NaT] for a missing cell. *)
Definition iso_zone (t : string) : option (option string) :=
  if matches "dddd-dd-dd dd:dd:dd" t || matches "dddd-dd-dd dd:dd" t
  then Some None
  else if matches "dddd-dd-dd dd:dd:dd+dd:dd" t
          || matches "dddd-dd-dd dd:dd:dd-dd:dd" t
       then Some (Some ("UTC" ++ substring 19 6 t)%string)
       else None.

Fixpoint iso_zones (a : list cell) : option (list (option string)) :=
  match a with
  | [] => Some []
  | NaN :: r => iso_zones r
  | Field t :: r =>
      match iso_zone t, iso_zones r with
      | Some z, Some zs => Some (z :: zs)
      | _, _ => None
      end
  end.

Definition same_zone (z z' : option string) : bool :=
  match z, z' with
  | None, None => true
  | Some a, Some b => String.eqb a b
  | _, _ => false
  end.

Definition iso_to_datetime (a : list cell)
  : option (list string * option string) :=
  match iso_zones a with
  | Some zs =>
      if forallb (same_zone (hd None zs)) zs
      then Some (map (fun c => match c with
                               | Field t => t
                               | NaN => "NaT"
                               end) a,
                 hd None zs)
      else None
  | None => None
  end.

(** A [tz_localize] that knows the fixed-offset zones [Etc/GMT-14] to
    [Etc/GMT+12]. *)
Definition etc_zones : list string :=
  ["Etc/GMT+0"; "Etc/GMT+1"; "Etc/GMT+2"; "Etc/GMT+3"; "Etc/GMT+4";
   "Etc/GMT+5"; "Etc/GMT+6"; "Etc/GMT+7"; "Etc/GMT+8"; "Etc/GMT+9";
   "Etc/GMT+10"; "Etc/GMT+11"; "Etc/GMT+12";
   "Etc/GMT-0"; "Etc/GMT-1"; "Etc/GMT-2"; "Etc/GMT-3"; "Etc/GMT-4";
   "Etc/GMT-5"; "Etc/GMT-6"; "Etc/GMT-7"; "Etc/GMT-8"; "Etc/GMT-9";
   "Etc/GMT-10"; "Etc/GMT-11"; "Etc/GMT-12"; "Etc/GMT-13"; "Etc/GMT-14"].

Definition etc_tz_localize (stamps : list string) (tz : string)
  : option (list string) :=
  if Py.mem tz etc_zones then Some stamps else None.

(** The parser with these. *)
Definition parse_iso : nat -> stream -> bool -> outcome (DataFrame string * Meta) :=
  parse_mesor decimals string iso_to_datetime etc_tz_localize.

(** A complete file: two data channels, zone [UTC+1]. *)
Definition hourly_file : stream :=
  map nl
    ["#MESOR 1.1";
     "#comment - general";
     "#IPR.provider: DLR";
     "#timezone UTC+1";
     "#location.latitude[deg]: 51.5 N";
     "#channel date YYYY-MM-DD";
     "#channel time HH:MM:SS";
     "#channel GHI Global horizontal irradiance";
     "#channel NoMV Number of missing values";
     "#comment instrument 12 sensitivity: 14.7";
     "#begindata";
     "2005-02-01 01:00:00 -999.9 0";
     "# between the rows";
     "2005-02-01 02:00:00 12.5 3";
     "2005-02-01 03:00:00 -9999 7"].

(** The same header, true solar time. *)
Definition solar_file : stream :=
  map nl
    ["#MESOR 1.1";
     "#timezone TST";
     "#channel date YYYY-MM-DD";
     "#channel time HH:MM:SS";
     "#channel GHI Global horizontal irradiance";
     "#begindata";
     "2005-02-01 01:00:00 -999.9";
     "2005-02-01 02:00:00 12.5"].

(** A header that stops before [#begindata]. *)
Definition truncated_file : stream :=
  map nl
    ["#MESOR 1.1";
     "#timezone UTC+1";
     "#channel date YYYY-MM-DD";
     "#channel time HH:MM:SS";
     "#channel GHI Global horizontal irradiance"].

(** The instrument line of the specification's scenario, in a header. *)
Definition sensitivity_line : string :=
  "#comment instrument 12 sensitivity: 14.7 uV/Wm-2".

Definition sensitivity_file : stream :=
  map nl
    ["#MESOR 1.1";
     "#timezone UTC+1";
     "#channel date YYYY-MM-DD";
     "#channel time HH:MM:SS";
     "#channel GHI Global horizontal irradiance";
     sensitivity_line;
     "#begindata";
     "2005-02-01 01:00:00 12.5"].

(** Four columns declared; the second row has one field less. *)
Definition short_row_file : stream :=
  map nl
    ["#MESOR 1.1";
     "#timezone UTC+1";
     "#channel date YYYY-MM-DD";
     "#channel time HH:MM:SS";
     "#channel GHI Global horizontal irradiance";
     "#channel NoMV Number of missing values";
     "#begindata";
     "2005-02-01 01:00:00 5.0 0";
     "2005-02-01 02:00:00 12.5"].

(** The second row has one field more. *)
Definition long_row_file : stream :=
  map nl
    ["#MESOR 1.1";
     "#timezone UTC+1";
     "#channel date YYYY-MM-DD";
     "#channel time HH:MM:SS";
     "#channel GHI Global horizontal irradiance";
     "#begindata";
     "2005-02-01 01:00:00 5.0";
     "2005-02-01 02:00:00 12.5 7"].

(** A channel whose code is already a pvlib name. *)
Definition lowercase_file : stream :=
  map nl
    ["#MESOR 1.1";
     "#timezone UTC+1";
     "#channel date YYYY-MM-DD";
     "#channel time HH:MM:SS";
     "#channel ghi Global horizontal irradiance";
     "#begindata";
     "2005-02-01 01:00:00 12.5"].

(** A header without a [#timezone] line. *)
Definition no_timezone_file : stream :=
  map nl
    ["#MESOR 1.1";
     "#channel date YYYY-MM-DD";
     "#channel time HH:MM:SS";
     "#channel GHI Global horizontal irradiance";
     "#begindata";
     "2005-02-01 01:00:00 12.5"].

(** A file system with one file. *)
Definition one_file (path : string) (text : string) (p : string)
  : option string :=
  if String.eqb p path then Some text else None.

(** The text whose lines are [hourly_file]. *)
Definition hourly_text : string := String.concat EmptyString hourly_file.

(* ------------------------------------------------------------------ *)
(** ** Notions for the header as a whole *)

(** The header lines as the loop sees them, without their newline. *)
Definition stripped (lines : list string) : list string :=
  map (Py.rstrip newline) lines.

(** The loop body on each line in turn, up to a [break]: what the loop
    does with the lines it reads. *)
Fixpoint run_lines (lines : list string) (meta : Meta) (names : list string)
  : outcome (Meta * list string) :=
  match lines with
  | [] => Return (meta, names)
  | l :: rest =>
      s <- header_line l meta names ;;
      match s with
      | Next meta' names' => run_lines rest meta' names'
      | Break => Return (meta, names)
      end
  end.

(** A line whose text is appended to [meta['comments']]: a [#comment]
    line that is neither a decoration nor an instrument line. *)
Definition plain_comment (line : string) : bool :=
  negb (Py.startswith line "#comment -")
  && negb (Py.startswith line "#comment instrument")
  && Py.startswith line "#comment".

Definition comment_text (line : string) : string :=
  Py.join " " (from 1 (Py.split line)).

Definition comments_of (lines : list string) : list string :=
  map comment_text (filter plain_comment (stripped lines)).

(** The second word of a line, in a list: nothing when there is none. *)
Definition second_word (line : string) : list string :=
  match nth_error (Py.split line) 1 with
  | Some w => [w]
  | None => []
  end.

(** The codes of the [#channel] lines, in order, repeats included. *)
Definition channel_codes (lines : list string) : list string :=
  flat_map (fun l => if Py.startswith l "#channel" then second_word l else [])
           (stripped lines).

(** The value of the last [#timezone] line, the empty [dict] when there
    is none. *)
Definition last_timezone (lines : list string) : tz_value :=
  fold_left (fun tz l => if Py.startswith l "#timezone"
                         then match second_word l with
                              | t :: _ => TzStr t
                              | [] => tz
                              end
                         else tz)
            (stripped lines) TzEmptyDict.

(** A line the loop passes over without any effect: a decoration line,
    or a line that starts with none of the prefixes (an empty line, for
    one). *)
Definition passed_over (line : string) : bool :=
  Py.startswith line "#comment -"
  || negb (existsb (Py.startswith line)
                   ["#IPR"; "#timezone"; "#location"; "#spectral";
                    "#channel"; "#comment"; "#begindata"]).

(** [old in s] *)
Fixpoint occurs (old s : string) : bool :=
  Py.startswith s old
  || match s with
     | EmptyString => false
     | String _ r => occurs old r
     end.

(** A word: a non-empty text without whitespace. *)
Fixpoint no_space (s : string) : bool :=
  match s with
  | EmptyString => true
  | String c r => negb (Py.isspace c) && no_space r
  end.

Definition is_word (s : string) : bool :=
  negb (String.eqb s EmptyString) && no_space s.

(** A text of ASCII characters. *)
Fixpoint ascii_text (s : string) : bool :=
  match s with
  | EmptyString => true
  | String c r => (nat_of_ascii c <? 128)%nat && ascii_text r
  end.

(** The values under [mult_cc], [off_cc] and [sensitivity] are floats,
    the values under every other parameter name are texts. *)
Definition calibration_typed (meta : Meta) : Prop :=
  forall id param v,
    instrument_value meta id param = Some v ->
    if Py.mem param ["mult_cc"; "off_cc"; "sensitivity"]
    then exists x, v = PFloat x
    else exists s, v = PStr s.

(** A header with a decoration line, an empty line and a line of an
    unknown kind, two zones and a channel declared twice. *)
Definition untidy_header : stream :=
  map nl
    ["#MESOR 1.1";
     "#comment - general";
     "#timezone UTC+1";
     "";
     "#channel date YYYY-MM-DD";
     "#comment first  remark";
     "#channel time HH:MM:SS";
     "#unknown line";
     "#channel GHI Global";
     "#comment instrument 3 name: CM11";
     "#timezone UTC+2";
     "#channel GHI Global   horizontal irradiance";
     "#comment second remark";
     "#begindata";
     "2005-02-01 01:00:00 12.5 12.5";
     "#begindata"].

(** A header that declares no [date] channel. *)
Definition no_date_file : stream :=
  map nl
    ["#MESOR 1.1";
     "#timezone UTC+1";
     "#channel time HH:MM:SS";
     "#channel GHI Global horizontal irradiance";
     "#begindata";
     "01:00:00 12.5"].

(** A header that declares [date] but no [time] channel; the dates are
    written with digits only. *)
Definition no_time_file : stream :=
  map nl
    ["#MESOR 1.1";
     "#timezone UTC+1";
     "#channel date YYYYMMDD";
     "#channel GHI Global horizontal irradiance";
     "#begindata";
     "20050201 12.5"].



(** True solar time, the times written with a UTC offset. *)
Definition offset_file : stream :=
  map nl
    ["#MESOR 1.1";
     "#timezone TST";
     "#channel date YYYY-MM-DD";
     "#channel time HH:MM:SS";
     "#channel GHI Global horizontal irradiance";
     "#begindata";
     "2005-02-01 01:00:00+01:00 5.0";
     "2005-02-01 02:00:00+01:00 12.5"].

(** A zone given by its name in the zone database. *)
Definition zone_name_file : stream :=
  map nl
    ["#MESOR 1.1";
     "#timezone Etc/GMT-3";
     "#channel date YYYY-MM-DD";
     "#channel time HH:MM:SS";
     "#channel GHI Global horizontal irradiance";
     "#begindata";
     "2005-02-01 01:00:00 12.5"].

(** In the data section: a comment line, an empty line, a line of
    blanks, and a comment after leading blanks. *)
Definition remarks_file : stream :=
  map nl
    ["#MESOR 1.1";
     "#timezone TST";
     "#channel date YYYY-MM-DD";
     "#channel time HH:MM:SS";
     "#channel GHI Global horizontal irradiance";
     "#begindata";
     "2005-02-01 01:00:00 5.0";
     "# a remark";
     "";
     "   ";
     "  # a remark after blanks";
     "2005-02-01 02:00:00 12.5"].

(* ------------------------------------------------------------------ *)
(** ** The built-ins and the loop body on sample texts *)

Example split_ex :
  Py.split "#comment instrument 12 sensitivity: 14.7 uV/Wm-2"
  = ["#comment"; "instrument"; "12"; "sensitivity:"; "14.7"; "uV/Wm-2"].
Proof. reflexivity. Qed.

Example split_on_ex : Py.split_on ":" "a:b::c" = ["a"; "b"; ""; "c"].
Proof. reflexivity. Qed.

Example replace_ex : Py.replace "UTC+" "Etc/GMT+" "UTC+2" = "Etc/GMT+2".
Proof. reflexivity. Qed.

Example float_ex1 : Py.float "14.7" = Some (Py.Dec false 147 (-1)).
Proof. reflexivity. Qed.

Example float_ex2 : Py.float "14.7 uV/Wm-2" = None.
Proof. reflexivity. Qed.

Example float_ex3 : Py.float " -1_0.5e+3 " = Some (Py.Dec true 105 2).
Proof. reflexivity. Qed.

Example float_ex4 : Py.float "1e" = None /\ Py.float "." = None
                    /\ Py.float "1." = Some (Py.Dec false 1 0)
                    /\ Py.float "-Infinity" = Some (Py.Inf true).
Proof. repeat split; reflexivity. Qed.

Example header_line_instrument :
  header_line "#comment instrument 12 sensitivity: 14.7" meta0 []
  = Return (Next (set_instruments
                    [("12", [("sensitivity", PFloat (Py.Dec false 147 (-1)))])]
                    meta0) []).
Proof. reflexivity. Qed.

Example header_line_instrument_unit :
  header_line "#comment instrument 12 sensitivity: 14.7 uV/Wm-2" meta0 []
  = Raise ValueError.
Proof. reflexivity. Qed.

Example header_line_location :
  header_line "#location.latitude[deg]: 51.5 N" meta0 []
  = Return (Next (set_location [("latitude[deg]", "51.5")] meta0) []).
Proof. reflexivity. Qed.

(* ------------------------------------------------------------------ *)
(** ** Lemmas on the built-ins *)

Lemma startswith_app (p r : string) : Py.startswith (p ++ r) p = true.
Proof.
  induction p as [|a p IH]; simpl; [reflexivity|].
  now rewrite Ascii.eqb_refl.
Qed.

Lemma startswith_inv (p s : string) :
  Py.startswith s p = true -> exists r, s = (p ++ r)%string.
Proof.
  revert s; induction p as [|a p IH]; intros s H; simpl in *.
  - now exists s.
  - destruct s as [|b s]; [discriminate|].
    apply andb_true_iff in H as [Hab Hs].
    apply Ascii.eqb_eq in Hab; subst b.
    destruct (IH _ Hs) as [r ->]. now exists r.
Qed.

Lemma digit_not_U (c : ascii) (d : N) :
  Py.digit c = Some d -> Ascii.eqb c "U" = false.
Proof.
  intros H. destruct (Ascii.eqb_spec c "U") as [->|]; [discriminate|reflexivity].
Qed.

(** Text without the first character of [old] holds no occurrence. *)
Lemma replace_digits (old' new s : string) :
  all_digits s = true -> Py.replace (String "U" old') new s = s.
Proof.
  unfold Py.replace.
  induction s as [|c s IH]; [reflexivity|].
  cbn -[Ascii.eqb Py.digit].
  destruct (Py.digit c) as [d|] eqn:Hd; [|discriminate].
  intros Hs. apply digit_not_U in Hd.
  rewrite Ascii.eqb_sym in Hd.
  rewrite Hd. cbn -[Ascii.eqb]. now rewrite IH.
Qed.

Lemma keys_dict_set {V : Type} (k : string) (v : V) (d : Py.dict V) :
  Py.keys (Py.dict_set k v d)
  = if Py.mem k (Py.keys d) then Py.keys d else Py.keys d ++ [k].
Proof.
  induction d as [|[k' v'] d IH]; simpl; [reflexivity|].
  rewrite (String.eqb_sym k k').
  destruct (String.eqb_spec k' k) as [->|Hne]; simpl; [reflexivity|].
  unfold Py.keys in *. rewrite IH.
  now destruct (Py.mem k (map fst d)).
Qed.

Lemma dict_get_set {V : Type} (k : string) (v : V) (d : Py.dict V) :
  Py.dict_get k (Py.dict_set k v d) = Some v.
Proof.
  induction d as [|[k' v'] d IH]; simpl.
  - now rewrite String.eqb_refl.
  - destruct (String.eqb_spec k' k) as [->|Hne]; simpl.
    + now rewrite String.eqb_refl.
    + destruct (String.eqb_spec k' k); [contradiction|exact IH].
Qed.

Lemma mem_In (x : string) (l : list string) :
  Py.mem x l = true <-> In x l.
Proof.
  unfold Py.mem. rewrite existsb_exists. split.
  - intros [y [Hy He]]. apply String.eqb_eq in He. now subst.
  - intros H. exists x. split; [exact H|apply String.eqb_refl].
Qed.

Lemma first_seen_snoc (l : list string) (k : string) :
  first_seen (l ++ [k])
  = if Py.mem k (first_seen l) then first_seen l else first_seen l ++ [k].
Proof. unfold first_seen. now rewrite fold_left_app. Qed.

Lemma has_duplicates_NoDup (l : list string) :
  has_duplicates l = false <-> NoDup l.
Proof.
  induction l as [|x l IH]; simpl.
  - split; [constructor|reflexivity].
  - rewrite orb_false_iff, IH. split.
    + intros [Hm Hn]. constructor; [|exact Hn].
      intros Hin. apply mem_In in Hin. congruence.
    + intros Hn. inversion Hn as [|? ? Hx Hl]; subst. split; [|exact Hl].
      destruct (Py.mem x l) eqn:E; [|reflexivity].
      apply mem_In in E. contradiction.
Qed.

(** Without a repeated key, the keys seen first are all the keys. *)
Lemma first_seen_NoDup_prefix (seen l : list string) :
  NoDup (seen ++ l) ->
  fold_left (fun seen k => if Py.mem k seen then seen else seen ++ [k]) l seen
  = seen ++ l.
Proof.
  revert seen; induction l as [|k l IH]; intros seen Hn; simpl.
  - now rewrite app_nil_r.
  - destruct (Py.mem k seen) eqn:E.
    + apply mem_In in E. apply NoDup_remove_2 in Hn.
      exfalso. apply Hn. apply in_or_app. now left.
    + replace (seen ++ k :: l) with ((seen ++ [k]) ++ l)
        by now rewrite <- app_assoc.
      apply IH. now rewrite <- app_assoc.
Qed.

Lemma first_seen_NoDup (l : list string) :
  has_duplicates l = false -> first_seen l = l.
Proof.
  intros H. apply has_duplicates_NoDup in H.
  exact (first_seen_NoDup_prefix [] l H).
Qed.

(* ------------------------------------------------------------------ *)
(** ** Lemmas on the header loop *)

(** Reading one more line. *)
Lemma header_loop_step (fuel : nat) (l : string) (rest : stream)
      (meta : Meta) (names : list string) :
  header_loop (S fuel) (l :: rest) meta names
  = (s <- header_line (Py.rstrip newline l) meta names ;;
     match s with
     | Next meta' names' => header_loop fuel rest meta' names'
     | Break => Return (meta, names, rest)
     end).
Proof. reflexivity. Qed.

(** At the end of the stream [readline] gives the empty text, which
    matches no branch: the loop goes round with nothing changed. *)
Lemma header_loop_eof (fuel : nat) (meta : Meta) (names : list string) :
  header_loop fuel [] meta names = OutOfFuel.
Proof. induction fuel as [|fuel IH]; [reflexivity|exact IH]. Qed.

(** Case analysis on a run of [header_line] that is known to end in a
    given way. *)
Ltac destruct_scrutinee H :=
  match type of H with
  | context [match ?x with _ => _ end] =>
      lazymatch x with
      | context [match _ with _ => _ end] => fail
      | _ => destruct x eqn:?
      end
  end.

Ltac header_cases H :=
  unfold header_line, instrument_line, bind, item, float in H;
  repeat destruct_scrutinee H;
  try discriminate.

(** The loop leaves only on a line that starts with [#begindata]. *)
Lemma header_line_break (line : string) (meta : Meta) (names : list string) :
  header_line line meta names = Return Break ->
  Py.startswith line "#begindata" = true.
Proof. intros H. header_cases H. reflexivity. Qed.

Lemma begindata_breaks (line : string) (meta : Meta) (names : list string) :
  Py.startswith line "#begindata" = true ->
  header_line line meta names = Return Break.
Proof.
  intros H. apply startswith_inv in H as [r ->]. reflexivity.
Qed.

(** Only a [#timezone] line assigns [meta['timezone']]. *)
Lemma header_line_timezone (line : string) (meta meta' : Meta)
      (names names' : list string) :
  header_line line meta names = Return (Next meta' names') ->
  Py.startswith line "#timezone" = false ->
  meta_timezone meta' = meta_timezone meta.
Proof.
  intros H Htz. header_cases H; inversion H; subst; reflexivity.
Qed.

(** The keys of [meta['channels']] are the names, each where it was seen
    first. *)
Lemma header_line_channels (line : string) (meta meta' : Meta)
      (names names' : list string) :
  header_line line meta names = Return (Next meta' names') ->
  Py.keys (meta_channels meta) = first_seen names ->
  Py.keys (meta_channels meta') = first_seen names'.
Proof.
  intros H Hk. header_cases H; inversion H; subst; simpl; try exact Hk.
  rewrite keys_dict_set, first_seen_snoc, Hk. reflexivity.
Qed.

(** A stream without a [#begindata] line never lets the loop return. *)
Lemma header_loop_never_returns (fuel : nat) :
  forall (fbuf : stream) (meta : Meta) (names : list string) r,
    has_begindata fbuf = false ->
    header_loop fuel fbuf meta names <> Return r.
Proof.
  induction fuel as [|fuel IH]; intros fbuf meta names r Hb; [discriminate|].
  destruct fbuf as [|l rest].
  - rewrite header_loop_eof. discriminate.
  - rewrite header_loop_step.
    change (has_begindata (l :: rest))
      with (Py.startswith (Py.rstrip newline l) "#begindata"
            || has_begindata rest) in Hb.
    apply orb_false_iff in Hb as [Hl Hrest].
    destruct (header_line (Py.rstrip newline l) meta names) as [[m n|]|e|] eqn:E;
      simpl; try discriminate.
    + now apply IH.
    + apply header_line_break in E. congruence.
Qed.

Lemma header_lines_cons (l : string) (rest : stream) :
  header_lines (l :: rest)
  = if Py.startswith (Py.rstrip newline l) "#begindata" then []
    else l :: header_lines rest.
Proof. reflexivity. Qed.

(** What a returning loop has established. *)
Lemma header_loop_returns (fuel : nat) :
  forall (fbuf : stream) (meta : Meta) (names : list string) meta' names' rest,
    header_loop fuel fbuf meta names = Return (meta', names', rest) ->
    (Py.keys (meta_channels meta) = first_seen names ->
     Py.keys (meta_channels meta') = first_seen names')
    /\ ((forall l, In l (header_lines fbuf) ->
                   Py.startswith (Py.rstrip newline l) "#timezone" = false) ->
        meta_timezone meta' = meta_timezone meta)
    /\ (exists b, fbuf = header_lines fbuf ++ b :: rest
                  /\ Py.startswith (Py.rstrip newline b) "#begindata" = true).
Proof.
  induction fuel as [|fuel IH]; intros fbuf meta names meta' names' rest H;
    [discriminate|].
  destruct fbuf as [|l fbuf].
  - rewrite header_loop_eof in H. discriminate.
  - rewrite header_loop_step in H.
    destruct (header_line (Py.rstrip newline l) meta names) as [[m n|]|e|] eqn:E;
      simpl in H; try discriminate.
    + assert (Hl : Py.startswith (Py.rstrip newline l) "#begindata" = false).
      { destruct (Py.startswith (Py.rstrip newline l) "#begindata") eqn:B;
          [|reflexivity].
        rewrite (begindata_breaks _ meta names B) in E. discriminate. }
      destruct (IH _ _ _ _ _ _ H) as [Hc [Ht [b [Hs Hb]]]].
      rewrite header_lines_cons, Hl. repeat split.
      * intros Hk. apply Hc. eapply header_line_channels; eauto.
      * intros Hno. rewrite Ht.
        -- eapply header_line_timezone; eauto. apply Hno. now left.
        -- intros l' Hin. apply Hno. now right.
      * exists b. split; [|exact Hb].
        rewrite <- app_comm_cons. now f_equal.
    + inversion H; subst. apply header_line_break in E.
      rewrite header_lines_cons, E. repeat split; auto.
      exists l. split; [reflexivity|exact E].
Qed.

(** The exceptions of the loop are those of indexing and of [float]:
    there is none for a header that does not end. *)
Lemma header_line_raises (line : string) (meta : Meta) (names : list string)
      (e : exn) :
  header_line line meta names = Raise e -> e = IndexError \/ e = ValueError.
Proof. intros H. header_cases H; inversion H; auto. Qed.

Lemma header_loop_raises (fuel : nat) :
  forall (fbuf : stream) (meta : Meta) (names : list string) (e : exn),
    header_loop fuel fbuf meta names = Raise e ->
    e = IndexError \/ e = ValueError.
Proof.
  induction fuel as [|fuel IH]; intros fbuf meta names e H; [discriminate|].
  destruct fbuf as [|l rest].
  - rewrite header_loop_eof in H. discriminate.
  - rewrite header_loop_step in H.
    destruct (header_line (Py.rstrip newline l) meta names) as [[m n|]|e'|] eqn:E;
      cbn [bind] in H; try discriminate.
    + now apply IH in H.
    + inversion H; subst. now apply header_line_raises in E.
Qed.

Lemma header_line_in_fuel (line : string) (meta : Meta) (names : list string) :
  header_line line meta names <> OutOfFuel.
Proof. intros H. header_cases H. Qed.

(** With a [#begindata] line ahead and one iteration per line before it,
    plus one, the loop comes to an end. *)
Lemma header_loop_terminates (fuel : nat) :
  forall (fbuf : stream) (meta : Meta) (names : list string),
    has_begindata fbuf = true ->
    (List.length (header_lines fbuf) < fuel)%nat ->
    header_loop fuel fbuf meta names <> OutOfFuel.
Proof.
  induction fuel as [|fuel IH]; intros fbuf meta names Hb Hf; [inversion Hf|].
  destruct fbuf as [|l rest]; [discriminate|].
  rewrite header_loop_step.
  change (has_begindata (l :: rest))
    with (Py.startswith (Py.rstrip newline l) "#begindata"
          || has_begindata rest) in Hb.
  rewrite header_lines_cons in Hf.
  destruct (Py.startswith (Py.rstrip newline l) "#begindata") eqn:B.
  - rewrite (begindata_breaks _ meta names B). discriminate.
  - simpl in Hb, Hf.
    destruct (header_line (Py.rstrip newline l) meta names) as [[m n|]|e|] eqn:E;
      simpl; try discriminate.
    + apply IH; [exact Hb|lia].
    + now apply header_line_in_fuel in E.
Qed.

(* ------------------------------------------------------------------ *)
(** ** Lemmas on the table *)

Lemma labels_build_columns pd na lead (names : list string) rows :
  forall j, map fst (build_columns pd na lead j names rows) = names.
Proof.
  induction names as [|x names IH]; intros j; simpl; [reflexivity|].
  now rewrite IH.
Qed.

(** Every column built is the column of some name, filled from the
    field at that name's position. *)
Lemma In_build_columns pd na lead (names : list string) rows label cells :
  forall j0,
    In (label, cells) (build_columns pd na lead j0 names rows) ->
    exists j, nth_error names j = Some label
              /\ cells = convert pd (na_strings na) (na_numbers na)
                           (map (fun r => nth (lead + (j0 + j)) (snd r)
                                              EmptyString) rows).
Proof.
  induction names as [|x names IH]; intros j0 H; simpl in H; [contradiction|].
  destruct H as [H|H].
  - inversion H; subst. exists 0. split; [reflexivity|].
    now rewrite Nat.add_0_r.
  - destruct (IH _ H) as [j [Hj Hc]]. exists (S j). split; [exact Hj|].
    rewrite Hc. now replace (j0 + S j) with (S j0 + j) by lia.
Qed.

Lemma nth_build_columns pd na lead (names : list string) rows :
  forall j0 j,
    nth_error (build_columns pd na lead j0 names rows) j
    = option_map
        (fun name => (name, convert pd (na_strings na) (na_numbers na)
                              (map (fun r => nth (lead + (j0 + j)) (snd r)
                                                 EmptyString) rows)))
        (nth_error names j).
Proof.
  induction names as [|x names IH]; intros j0 j.
  - now destruct j.
  - destruct j as [|j]; cbn [build_columns nth_error option_map].
    + now rewrite Nat.add_0_r.
    + rewrite IH. now replace (S j0 + j) with (j0 + S j) by lia.
Qed.

Lemma lookup_In (label : string) (cols : list (string * list cell)) c :
  lookup label cols = Some c -> In label (map fst cols).
Proof.
  induction cols as [|[l c'] cols IH]; simpl; [discriminate|].
  destruct (String.eqb_spec l label) as [->|Hne]; intros H; [now left|].
  right. now apply IH.
Qed.

(** A column has one cell per text. *)
Lemma length_convert pd strings numbers (texts : list string) :
  List.length (convert pd strings numbers texts) = List.length texts.
Proof. apply length_map. Qed.

(** The cell a text gives. *)
Lemma nth_convert pd strings numbers (texts : list string) i t :
  nth_error texts i = Some t ->
  exists c,
    nth_error (convert pd strings numbers texts) i = Some c
    /\ (is_missing strings t = true -> c = NaN)
    /\ (column_of_doubles pd strings texts = true ->
        existsb (double_equals pd t) numbers = true -> c = NaN)
    /\ (c = NaN ->
        is_missing strings t = true
        \/ (column_of_doubles pd strings texts = true
            /\ existsb (double_equals pd t) numbers = true))
    /\ (c <> NaN -> c = Field t).
Proof.
  intros H. unfold convert. rewrite nth_error_map, H. cbn [option_map].
  eexists. split; [reflexivity|].
  destruct (is_missing strings t); cbn [orb].
  - repeat split; intros; auto; contradiction.
  - destruct (column_of_doubles pd strings texts); cbn [andb].
    + destruct (existsb (double_equals pd t) numbers);
        repeat split; intros; auto; try discriminate; try contradiction.
    + repeat split; intros; auto; discriminate.
Qed.

(** A row that does not reach a column leaves the missing marker
    there. *)
Lemma convert_short pd strings numbers (rows : list (nat * list string))
      (pos i : nat) line fs :
  nth_error rows i = Some (line, fs) ->
  (List.length fs <= pos)%nat ->
  nth_error (convert pd strings numbers
               (map (fun r => nth pos (snd r) EmptyString) rows)) i
  = Some NaN.
Proof.
  intros Hr Hs.
  destruct (nth_convert pd strings numbers
              (map (fun r => nth pos (snd r) EmptyString) rows) i EmptyString)
    as [c [Hc [Hna _]]].
  - rewrite nth_error_map, Hr. cbn [option_map snd].
    now rewrite nth_overflow.
  - rewrite Hc. f_equal. now apply Hna.
Qed.

(** The lines the reader skips are the lines that are no rows. *)
Lemma skipped_is_row (line : string) : skipped line = negb (is_row line).
Proof.
  unfold skipped, is_row. destruct (body line) as [|c r]; [reflexivity|].
  cbn [String.eqb Py.startswith negb andb]. rewrite (Ascii.eqb_sym c "#").
  rewrite andb_true_r. now rewrite negb_andb, !negb_involutive.
Qed.

(** The rows, line by line. *)
Lemma rows_from_line (fbuf : list string) :
  forall (n k : nat) (line : string),
    nth_error fbuf k = Some line ->
    is_row line = true ->
    nth_error (rows_from n fbuf) (row_index fbuf k) = Some (n + k, fields line).
Proof.
  induction fbuf as [|a rest IH]; intros n k line Hk Hs;
    [now destruct k|].
  destruct k as [|k].
  - inversion Hk; subst a. cbn [rows_from]. rewrite skipped_is_row, Hs.
    now rewrite Nat.add_0_r.
  - cbn [nth_error] in Hk. unfold row_index, data_lines.
    cbn [firstn filter rows_from]. rewrite skipped_is_row.
    replace (n + S k) with (S n + k) by lia.
    destruct (is_row a); cbn [negb length nth_error]; now apply IH.
Qed.

Lemma length_rows_from (fbuf : list string) :
  forall n, List.length (rows_from n fbuf) = List.length (data_lines fbuf).
Proof.
  induction fbuf as [|a rest IH]; intros n; [reflexivity|].
  unfold data_lines. cbn [rows_from filter]. rewrite skipped_is_row.
  destruct (is_row a); cbn [negb length]; now rewrite IH.
Qed.

(** What [read_csv] has done when it returns. *)
Lemma read_csv_returns {T : Type} pd (fbuf names : list string) na
      (data : DataFrame T) :
  read_csv pd fbuf names na = Return data ->
  has_duplicates names = false
  /\ find (too_long (width (rows_from 1 fbuf) names))
          (tl (rows_from 1 fbuf)) = None
  /\ data = mkFrame (build_columns pd na (leading (rows_from 1 fbuf) names) 0
                                   names (rows_from 1 fbuf))
                    DefaultIndex.
Proof.
  unfold read_csv. intros H.
  destruct (has_duplicates names); [discriminate|].
  split; [reflexivity|].
  destruct (find (too_long (width (rows_from 1 fbuf) names))
                 (tl (rows_from 1 fbuf)))
    as [[line fs]|] eqn:F.
  - destruct (rows_from 1 fbuf), names; discriminate.
  - split; [reflexivity|].
    destruct (rows_from 1 fbuf), names; try discriminate; now inversion H.
Qed.

Lemma read_csv_in_fuel {T : Type} pd (fbuf names : list string) na :
  @read_csv T pd fbuf names na <> OutOfFuel.
Proof.
  unfold read_csv.
  destruct (has_duplicates names); [discriminate|].
  destruct (find _ _) as [[line fs]|];
    destruct (rows_from 1 fbuf), names; discriminate.
Qed.

(** The only error of the reader that tells a field count is the one
    for a row that is too long. *)
Lemma read_csv_parser_error {T : Type} pd (fbuf names : list string) na
      (expected line saw : nat) :
  @read_csv T pd fbuf names na = Raise (ParserError expected line saw) ->
  exists fs,
    find (too_long (width (rows_from 1 fbuf) names)) (tl (rows_from 1 fbuf))
    = Some (line, fs).
Proof.
  unfold read_csv.
  destruct (has_duplicates names); [discriminate|].
  destruct (find _ _) as [[l fs]|].
  - destruct (rows_from 1 fbuf), names; intros H; inversion H; subst;
      now exists fs.
  - destruct (rows_from 1 fbuf), names; discriminate.
Qed.

(** Renaming leaves [date] and [time] alone and produces neither. *)
Lemma rename_date_time (l : string) :
  Py.mem (rename_label MESOR_VARIABLE_MAP l) ["date"; "time"]
  = Py.mem l ["date"; "time"].
Proof.
  unfold rename_label, MESOR_VARIABLE_MAP; cbn [Py.dict_get].
  repeat match goal with
         | |- context [String.eqb ?a l] =>
             destruct (String.eqb_spec a l) as [<-|?]; [reflexivity|]
         end.
  reflexivity.
Qed.

Lemma filter_map_commute {A B : Type} (f : A -> B) (p : B -> bool)
      (q : A -> bool) (l : list A) :
  (forall x, p (f x) = q x) ->
  filter p (map f l) = map f (filter q l).
Proof.
  intros H. induction l as [|x l IH]; simpl; [reflexivity|].
  rewrite H. destruct (q x); simpl; now rewrite IH.
Qed.

Lemma labels_filter {T : Type} (p : string -> bool)
      (cols : list (string * list cell)) :
  map fst (filter (fun c => p (fst c)) cols) = filter p (map fst cols).
Proof.
  induction cols as [|c cols IH]; simpl; [reflexivity|].
  destruct (p (fst c)); simpl; now rewrite IH.
Qed.

(* ------------------------------------------------------------------ *)
(** ** Lemmas on [parse_mesor] *)

Lemma read_header_returns (fuel : nat) (fbuf : stream) meta names rest :
  read_header fuel fbuf = Return (meta, names, rest) ->
  Py.keys (meta_channels meta) = first_seen names
  /\ ((forall l, In l (header_lines (snd (readline fbuf))) ->
                 Py.startswith (Py.rstrip newline l) "#timezone" = false) ->
      meta_timezone meta = TzEmptyDict).
Proof.
  unfold read_header. destruct (readline fbuf) as [first tail]. intros H.
  apply header_loop_returns in H as [Hc [Ht _]]. split.
  - now apply Hc.
  - intros Hno. now rewrite (Ht Hno).
Qed.

Section Properties.

Variable pd : Library.
Variable Timestamp : Type.
Variable to_datetime : list cell -> option (list Timestamp * option string).
Variable tz_localize : list Timestamp -> string -> option (list Timestamp).
Variable file_system : string -> option string.

Local Notation "'parse'" := (parse_mesor pd Timestamp to_datetime tz_localize).
Local Notation "'zone'" := (index_and_zone pd Timestamp to_datetime tz_localize).

(** What line 153 has done when it returns. *)
Lemma date_time_index_returns (data : DataFrame Timestamp) idx :
  date_time_index pd Timestamp to_datetime data = Return idx ->
  exists stamps0 zone0,
    idx = DatetimeIndex stamps0 zone0
    /\ timestamps_of pd to_datetime data stamps0 zone0.
Proof.
  unfold date_time_index, getitem, add_str, add, bind. intros H.
  destruct (lookup "date" (columns data)) as [date|] eqn:Hd; [|discriminate].
  destruct (series_add_str pd date " ") as [date'|] eqn:Ha; [|discriminate].
  destruct (lookup "time" (columns data)) as [time|] eqn:Ht; [|discriminate].
  destruct (series_add pd date' time) as [series|] eqn:Hs; [|discriminate].
  destruct (to_datetime series) as [[stamps0 zone0]|] eqn:Hto; [|discriminate].
  inversion H. exists stamps0, zone0. split; [reflexivity|].
  now exists date, date', time, series.
Qed.

(** What lines 153 to 159 have done when they return. *)
Lemma index_and_zone_returns (data data' : DataFrame Timestamp) (meta : Meta) :
  zone data meta = Return data' ->
  exists timezone stamps0 zone0,
    meta_timezone meta = TzStr timezone
    /\ timestamps_of pd to_datetime data stamps0 zone0
    /\ In "date" (labels data) /\ In "time" (labels data)
    /\ if String.eqb timezone "TST"
       then data' = mkFrame (columns data) (DatetimeIndex stamps0 zone0)
       else zone0 = None
            /\ exists stamps,
                tz_localize stamps0 (tz_name timezone) = Some stamps
                /\ data' = mkFrame (filter not_date_time (columns data))
                                   (DatetimeIndex stamps
                                                  (Some (tz_name timezone))).
Proof.
  unfold index_and_zone. intros H.
  destruct (date_time_index _ _ _ data) as [idx| |] eqn:Hi;
    cbn [bind] in H; try discriminate.
  apply date_time_index_returns in Hi as [stamps0 [zone0 [-> Hts]]].
  destruct (meta_timezone meta) as [|timezone]; [discriminate|].
  exists timezone, stamps0, zone0. split; [reflexivity|].
  split; [exact Hts|].
  destruct Hts as [date [date' [time [series [Hd [_ [Ht _]]]]]]].
  apply lookup_In in Hd, Ht. split; [exact Hd|]. split; [exact Ht|].
  destruct (String.eqb timezone "TST").
  - now inversion H.
  - unfold localize, set_index in H. cbn [index] in H.
    destruct zone0 as [z|]; [discriminate|]. split; [reflexivity|].
    destruct (tz_localize stamps0 _) as [stamps|]; [|discriminate].
    exists stamps. split; [reflexivity|]. cbn [bind] in H.
    unfold drop, labels in H. cbn [find columns index] in H.
    rewrite (proj2 (mem_In "date" _) Hd) in H.
    rewrite (proj2 (mem_In "time" _) Ht) in H.
    cbn [negb] in H. now inversion H.
Qed.

(** The errors lines 153 to 159 end with. *)
Lemma index_and_zone_raises (data : DataFrame Timestamp) (meta : Meta) e :
  zone data meta = Raise e ->
  In e [KeyError "date"; KeyError "time"; TypeError; DateParseError;
        AttributeError; TimeZoneError].
Proof.
  clear file_system.
  unfold index_and_zone, date_time_index, getitem, add_str, add, localize,
    drop, set_index, bind.
  cbn [index labels columns find]. intros H.
  repeat match type of H with
         | context [match ?x with _ => _ end] =>
             lazymatch x with
             | context [match _ with _ => _ end] => fail
             | _ => destruct x
             end
         end;
    inversion H; cbn [In]; tauto.
Qed.

Lemma index_and_zone_no_timezone (data : DataFrame Timestamp) (meta : Meta) :
  meta_timezone meta = TzEmptyDict ->
  exists e, zone data meta = Raise e.
Proof.
  unfold index_and_zone, date_time_index, getitem, add_str, add, bind.
  intros ->.
  destruct (lookup "date" (columns data)) as [date|]; [|eauto].
  destruct (series_add_str pd date " ") as [date'|]; [|eauto].
  destruct (lookup "time" (columns data)) as [time|]; [|eauto].
  destruct (series_add pd date' time) as [series|]; [|eauto].
  destruct (to_datetime series) as [[stamps0 zone0]|]; eauto.
Qed.

(** What [parse_mesor] has done when it returns. *)
Lemma parse_mesor_returns (fuel : nat) (fbuf : stream) (map_variables : bool)
      (data : DataFrame Timestamp) (meta : Meta) :
  parse fuel fbuf map_variables = Return (data, meta) ->
  exists names rest data0 data1,
    read_header fuel fbuf = Return (meta, names, rest)
    /\ read_csv pd rest names na_values = Return data0
    /\ zone data0 meta = Return data1
    /\ data = if map_variables then rename data1 MESOR_VARIABLE_MAP
              else data1.
Proof.
  unfold parse_mesor, bind. intros H.
  destruct (read_header fuel fbuf) as [[[meta' names] rest]| |]; try discriminate.
  destruct (read_csv pd rest names na_values) as [data0| |] eqn:Hcsv;
    try discriminate.
  destruct (index_and_zone _ _ _ _ data0 meta') as [data1| |] eqn:Hz;
    try discriminate.
  inversion H; subst. now exists names, rest, data0, data1.
Qed.

(** The labels of the returned table. *)
Lemma parse_mesor_labels (fuel : nat) (fbuf : stream) (map_variables : bool)
      (data : DataFrame Timestamp) (meta : Meta) :
  parse fuel fbuf map_variables = Return (data, meta) ->
  let names := Py.keys (meta_channels meta) in
  has_duplicates names = false
  /\ In "date" names /\ In "time" names
  /\ (exists rest, read_header fuel fbuf = Return (meta, names, rest))
  /\ exists timezone,
      meta_timezone meta = TzStr timezone
      /\ labels data
         = map (if map_variables then rename_label MESOR_VARIABLE_MAP
                else fun l => l)
               (if String.eqb timezone "TST" then names
                else without_date_time names).
Proof.
  intros H names.
  apply parse_mesor_returns in H as [names0 [rest [data0 [data1 [Hh [Hc [Hz Hd]]]]]]].
  apply read_csv_returns in Hc as [Hdup [_ Hdata0]].
  apply index_and_zone_returns in Hz
    as [timezone [stamps0 [zone0 [Htz [_ [Hdate [Htime Hdata1]]]]]]].
  assert (Hl0 : labels data0 = names0).
  { rewrite Hdata0. apply labels_build_columns. }
  assert (Hn : names = names0).
  { unfold names. apply read_header_returns in Hh as [-> _].
    now apply first_seen_NoDup. }
  rewrite Hl0 in Hdate, Htime. rewrite Hn.
  repeat split; try assumption; [now exists rest|].
  exists timezone. split; [exact Htz|].
  assert (Hl1 : labels data1 = (if String.eqb timezone "TST" then names0
                                else without_date_time names0)).
  { destruct (String.eqb timezone "TST").
    - rewrite Hdata1. exact Hl0.
    - destruct Hdata1 as [_ [stamps [_ ->]]]. unfold labels; cbn [columns].
      unfold not_date_time.
      rewrite (@labels_filter Timestamp
                 (fun x => negb (Py.mem x ["date"; "time"]))).
      unfold without_date_time. f_equal. exact Hl0. }
  rewrite Hd. destruct map_variables.
  - unfold labels, rename; cbn [columns].
    rewrite map_map. cbn [fst]. rewrite <- Hl1. unfold labels.
    now rewrite map_map.
  - rewrite Hl1. now rewrite map_id.
Qed.

(** The index of the returned table. *)
Lemma parse_mesor_index (fuel : nat) (fbuf : stream) (map_variables : bool)
      (data : DataFrame Timestamp) (meta : Meta) :
  parse fuel fbuf map_variables = Return (data, meta) ->
  exists names rest data0 timezone stamps0 zone0,
    read_header fuel fbuf = Return (meta, names, rest)
    /\ read_csv pd rest names na_values = Return data0
    /\ timestamps_of pd to_datetime data0 stamps0 zone0
    /\ meta_timezone meta = TzStr timezone
    /\ if String.eqb timezone "TST"
       then index data = DatetimeIndex stamps0 zone0
       else zone0 = None
            /\ exists stamps,
                tz_localize stamps0 (tz_name timezone) = Some stamps
                /\ index data
                   = DatetimeIndex stamps (Some (tz_name timezone)).
Proof.
  intros H.
  apply parse_mesor_returns in H as [names [rest [data0 [data1 [Hh [Hc [Hz Hd]]]]]]].
  apply index_and_zone_returns in Hz
    as [timezone [stamps0 [zone0 [Htz [Hts [_ [_ Hdata1]]]]]]].
  exists names, rest, data0, timezone, stamps0, zone0.
  repeat (split; [assumption|]).
  assert (Hi : index data = index data1).
  { rewrite Hd. now destruct map_variables. }
  rewrite Hi. destruct (String.eqb timezone "TST").
  - now rewrite Hdata1.
  - destruct Hdata1 as [Hz0 [stamps [Hl ->]]]. split; [exact Hz0|].
    now exists stamps.
Qed.

(** The columns of the returned table are columns the reader built,
    under their name or the name the renaming gives it. *)
Lemma parse_mesor_columns (fuel : nat) (fbuf : stream) (map_variables : bool)
      (data : DataFrame Timestamp) (meta : Meta) names rest :
  parse fuel fbuf map_variables = Return (data, meta) ->
  read_header fuel fbuf = Return (meta, names, rest) ->
  forall label cells,
    In (label, cells) (columns data) ->
    exists j name,
      nth_error names j = Some name
      /\ label = (if map_variables
                  then rename_label MESOR_VARIABLE_MAP name else name)
      /\ cells = convert pd (na_strings na_values) (na_numbers na_values)
                   (column_texts rest names j).
Proof.
  intros H Hh0 label cells Hin.
  apply parse_mesor_returns in H
    as [names' [rest' [data0 [data1 [Hh [Hc [Hz Hd]]]]]]].
  rewrite Hh0 in Hh. inversion Hh; subst names' rest'.
  apply read_csv_returns in Hc as [_ [_ Hdata0]].
  apply index_and_zone_returns in Hz
    as [timezone [stamps0 [zone0 [_ [_ [_ [_ Hdata1]]]]]]].
  assert (H1 : forall c, In c (columns data1) -> In c (columns data0)).
  { intros c. destruct (String.eqb timezone "TST").
    - rewrite Hdata1. cbn [columns]. intros Hc; exact Hc.
    - destruct Hdata1 as [_ [stamps [_ ->]]]. cbn [columns].
      intros Hc. now apply filter_In in Hc. }
  assert (H0 : exists name, In (name, cells) (columns data0)
                            /\ label = if map_variables
                                       then rename_label MESOR_VARIABLE_MAP name
                                       else name).
  { rewrite Hd in Hin. destruct map_variables.
    - unfold rename in Hin. cbn [columns] in Hin.
      apply in_map_iff in Hin as [[name cells'] [Heq Hin]].
      cbn [fst snd] in Heq. inversion Heq; subst.
      exists name. split; [now apply H1|reflexivity].
    - exists label. split; [now apply H1|reflexivity]. }
  destruct H0 as [name [Hin0 Hlabel]].
  rewrite Hdata0 in Hin0. cbn [columns] in Hin0.
  apply In_build_columns in Hin0 as [j [Hj Hcells]].
  exists j, name. now repeat split.
Qed.

(** A header that stops before [#begindata] never lets [parse_mesor]
    return: the loop is left only by [break] or by an exception of one of
    the header lines. *)
Lemma truncated_header_never_returns (fuel : nat) (fbuf : stream)
      (map_variables : bool) r :
  has_begindata (snd (readline fbuf)) = false ->
  parse fuel fbuf map_variables <> Return r.
Proof.
  unfold parse_mesor, read_header. destruct (readline fbuf) as [first tail].
  cbn [snd]. intros Hb.
  destruct (header_loop fuel tail _ _) as [[[m n] rest]|e|] eqn:E;
    cbn [bind]; try discriminate.
  now apply header_loop_never_returns in E.
Qed.

(** It is still in the loop, or a header line has raised. *)
Lemma truncated_header_loops_or_raises (fuel : nat) (fbuf : stream)
      (map_variables : bool) :
  has_begindata (snd (readline fbuf)) = false ->
  parse fuel fbuf map_variables = OutOfFuel
  \/ parse fuel fbuf map_variables = Raise IndexError
  \/ parse fuel fbuf map_variables = Raise ValueError.
Proof.
  unfold parse_mesor, read_header. destruct (readline fbuf) as [first tail].
  cbn [snd]. intros Hb.
  destruct (header_loop fuel tail _ _) as [[[m n] rest]|e|] eqn:E;
    cbn [bind].
  - now apply header_loop_never_returns in E.
  - apply header_loop_raises in E as [-> | ->]; auto.
  - now left.
Qed.

(** More iterations do not change what a run that ended has done. *)
Lemma header_loop_more_fuel (fuel : nat) :
  forall (fbuf : stream) (meta : Meta) (names : list string),
    header_loop fuel fbuf meta names <> OutOfFuel ->
    header_loop (S fuel) fbuf meta names = header_loop fuel fbuf meta names.
Proof.
  induction fuel as [|fuel IH]; intros fbuf meta names H;
    [now contradiction H|].
  destruct fbuf as [|l rest].
  - now rewrite header_loop_eof in H.
  - rewrite !header_loop_step. rewrite header_loop_step in H.
    destruct (header_line (Py.rstrip newline l) meta names) as [[m n|]|e|];
      cbn [bind] in H |- *; try reflexivity.
    now apply IH.
Qed.

Lemma parse_mesor_more_fuel (fuel : nat) (fbuf : stream) (map_variables : bool) :
  parse fuel fbuf map_variables <> OutOfFuel ->
  parse (S fuel) fbuf map_variables = parse fuel fbuf map_variables.
Proof.
  unfold parse_mesor, read_header. destruct (readline fbuf) as [first tail].
  intros H. rewrite header_loop_more_fuel; [reflexivity|].
  intros E. rewrite E in H. now apply H.
Qed.

(** C1.  The parse of a header that ends before a line starting with
    [#begindata] is claimed to stop with a truncated-header error.  On
    [truncated_file], a well-formed header without that line, the loop is
    still running after any number of iterations: at the end of the
    stream [readline] returns the empty text, no branch matches it, and
    the loop reads again. *)
Theorem C1_truncated_header_loops_forever :
  forall (fuel : nat) (map_variables : bool),
    parse fuel truncated_file map_variables = OutOfFuel.
Proof.
  intros fuel mv. unfold parse_mesor, read_header, truncated_file.
  cbn [map readline].
  do 4 (destruct fuel as [|fuel]; [reflexivity|];
        rewrite header_loop_step;
        match goal with
        | |- context [header_line ?l ?m ?n] =>
            let v := eval vm_compute in (header_line l m n) in
            change (header_line l m n) with v
        end; cbn [bind]).
  now rewrite header_loop_eof.
Qed.

(** C2, as amended.  On a [#comment instrument] line with an instrument
    id, the value text is what follows the first colon of the line, its
    whitespace normalised.  Under the parameter names [mult_cc],
    [off_cc] and [sensitivity] the value stored is [float] of that text,
    and the line fails (with [ValueError]) exactly when [float] refuses
    the text; under any other name the text is stored as it is.  The line
    [#comment instrument 12 sensitivity: 14.7] stores the float 14.7;
    with a unit after the number the text is [14.7 uV/Wm-2], which is no
    number. *)
Theorem C2_calibration_value_is_float :
  forall (line : string) (meta : Meta) (names : list string) (id : string),
    Py.startswith line "#comment instrument" = true ->
    nth_error (Py.split line) 2 = Some id ->
    let param := hd EmptyString (Py.split_on ":" (instrument_description line)) in
    let text := param_value_text line in
    (if Py.mem param ["mult_cc"; "off_cc"; "sensitivity"]
     then match Py.float text with
          | Some x =>
              exists meta',
                header_line line meta names = Return (Next meta' names)
                /\ instrument_value meta' id param = Some (PFloat x)
          | None => header_line line meta names = Raise ValueError
          end
     else exists meta',
         header_line line meta names = Return (Next meta' names)
         /\ instrument_value meta' id param = Some (PStr text))
    /\ header_line "#comment instrument 12 sensitivity: 14.7" meta0 []
       = Return (Next (set_instruments
                         [("12", [("sensitivity",
                                   PFloat (Py.Dec false 147 (-1)))])]
                         meta0) [])
    /\ param_value_text sensitivity_line = "14.7 uV/Wm-2"
    /\ Py.float "14.7 uV/Wm-2" = None.
Proof.
  intros line meta names id Hs Hid param text.
  split; [|repeat split].
  assert (Hl : header_line line meta names = instrument_line line meta names).
  { apply startswith_inv in Hs as [r ->]. reflexivity. }
  rewrite Hl. unfold instrument_line, item, bind. rewrite Hid.
  fold text.
  assert (Hp : nth_error (Py.split_on ":" (instrument_description line)) 0
               = Some param).
  { unfold param.
    destruct (instrument_description line) as [|c d]; [reflexivity|].
    cbn [Py.split_on]. destruct (Ascii.eqb c ":"); [reflexivity|].
    now destruct (Py.split_on ":" d). }
  rewrite Hp.
  assert (Hv : forall v,
             instrument_value
               (set_instruments
                  (Py.dict_set id
                     (Py.dict_set param v
                        match Py.dict_get id
                                match Py.dict_get id (meta_instruments meta) with
                                | Some _ => meta_instruments meta
                                | None => Py.dict_set id [] (meta_instruments meta)
                                end
                        with Some d => d | None => [] end)
                     match Py.dict_get id (meta_instruments meta) with
                     | Some _ => meta_instruments meta
                     | None => Py.dict_set id [] (meta_instruments meta)
                     end) meta) id param = Some v).
  { intros v. unfold instrument_value. cbn [meta_instruments set_instruments].
    now rewrite !dict_get_set. }
  destruct (Py.mem param _).
  - unfold float. destruct (Py.float text) as [x|]; [|reflexivity].
    eexists. split; [reflexivity|apply Hv].
  - eexists. split; [reflexivity|apply Hv].
Qed.

(** C3, as amended.  The code has no row check of its own: the rows are
    read by [read_csv] with the channel codes as column names.  On data
    lines without quotes and carriage returns: a row after the first
    with more fields than the table is read with makes the parse fail
    with the reader's error, which carries the expected count, the line
    (counted from the line after [#begindata]) and the count seen, and
    no table is returned.  A row with fewer fields does not fail: when
    no later row is too long the parse never ends with that error, the
    reader returns a table and the parse goes on with it; the table has
    one column per name, in order, every column has one cell per row,
    and the cell of a row in a column the row does not reach is the
    missing marker; the columns of the table the parse returns are among
    these. *)
Theorem C3_row_field_count :
  forall (fuel : nat) (fbuf : stream) (map_variables : bool)
         (meta : Meta) (names : list string) (rest : stream),
    read_header fuel fbuf = Return (meta, names, rest) ->
    has_duplicates names = false ->
    plain_data rest = true ->
    let rows := rows_from 1 rest in
    let w := width rows names in
    (forall line fs,
        find (too_long w) (tl rows) = Some (line, fs) ->
        (List.length names < List.length fs)%nat
        /\ In (line, fs) (tl rows)
        /\ parse fuel fbuf map_variables
           = Raise (ParserError w line (List.length fs)))
    /\ (find (too_long w) (tl rows) = None ->
        rows <> [] ->
        (forall expected line saw,
            parse fuel fbuf map_variables
            <> Raise (ParserError expected line saw))
        /\ exists data0 : DataFrame Timestamp,
            read_csv pd rest names na_values = Return data0
            /\ parse fuel fbuf map_variables
               = (data <- zone data0 meta ;;
                  Return (if map_variables
                          then rename data MESOR_VARIABLE_MAP else data,
                          meta))
            /\ (forall j name,
                   nth_error names j = Some name ->
                   exists cells,
                     nth_error (columns data0) j = Some (name, cells)
                     /\ List.length cells = List.length (data_lines rest)
                     /\ forall k line,
                         nth_error rest k = Some line ->
                         is_row line = true ->
                         (List.length (fields line)
                          <= leading rows names + j)%nat ->
                         nth_error cells (row_index rest k) = Some NaN)
            /\ forall data meta',
                parse fuel fbuf map_variables = Return (data, meta') ->
                forall label cells,
                  In (label, cells) (columns data) ->
                  exists name,
                    In (name, cells) (columns data0)
                    /\ label = if map_variables
                               then rename_label MESOR_VARIABLE_MAP name
                               else name).
Proof.
  intros fuel fbuf mv meta names rest Hh Hdup Hplain rows w.
  split.
  - intros line fs Hf. pose proof (find_some _ _ Hf) as [Hin Hlong].
    unfold too_long in Hlong. cbn [snd] in Hlong.
    apply Nat.ltb_lt in Hlong.
    split; [|split; [exact Hin|]].
    + unfold w, width in Hlong. destruct rows as [|[l1 first] rows']; lia.
    + unfold parse_mesor. rewrite Hh. cbn [bind]. unfold read_csv.
      rewrite Hdup. fold rows. fold w. rewrite Hf.
      destruct rows as [|r rows']; [discriminate|]. reflexivity.
  - intros Hf Hrows.
    assert (Hc : @read_csv Timestamp pd rest names na_values
                 = Return (mkFrame (build_columns pd na_values
                                      (leading rows names) 0 names rows)
                                   DefaultIndex)).
    { unfold read_csv. rewrite Hdup. fold rows. fold w. rewrite Hf.
      destruct rows as [|r rows'] eqn:Er; [contradiction|]. reflexivity. }
    assert (Hp : parse fuel fbuf mv
                 = (data <- zone (mkFrame (build_columns pd na_values
                                             (leading rows names) 0 names rows)
                                          DefaultIndex) meta ;;
                    Return (if mv then rename data MESOR_VARIABLE_MAP
                            else data, meta))).
    { unfold parse_mesor. rewrite Hh. cbn [bind]. rewrite Hc. reflexivity. }
    split.
    + intros expected line saw E. rewrite Hp in E.
      destruct (zone _ meta) as [d|e|] eqn:Ez; cbn [bind] in E;
        try discriminate.
      inversion E; subst e. apply index_and_zone_raises in Ez.
      cbn [In] in Ez.
      repeat (destruct Ez as [Ez|Ez]; [discriminate|]). contradiction.
    + eexists. split; [exact Hc|]. split; [exact Hp|]. split.
      * intros j name Hj. eexists. cbn [columns].
        rewrite nth_build_columns, Hj. cbn [option_map Nat.add].
        split; [reflexivity|]. split.
        -- rewrite length_convert, length_map. apply length_rows_from.
        -- intros k line Hk Hs Hshort.
           apply (convert_short _ _ _ _ _ _ (1 + k) (fields line));
             [|exact Hshort].
           now apply rows_from_line.
      * intros data meta' Hret label cells Hin.
        pose proof Hret as Hm. apply parse_mesor_returns in Hm
          as [names' [rest' [_ [_ [Hh' _]]]]].
        rewrite Hh in Hh'. injection Hh' as Hm _ _. subst meta'.
        destruct (parse_mesor_columns _ _ _ _ _ _ _ Hret Hh label cells Hin)
          as [j [name [Hj [Hl Hcells]]]].
        exists name. split; [|exact Hl]. cbn [columns].
        apply (nth_error_In _ j). rewrite nth_build_columns, Hj.
        cbn [option_map Nat.add]. now rewrite Hcells.
Qed.

(** C4, as amended.  When the parse returns, the column names the data
    section is read with are the keys of [channels], in the order their
    [#channel] lines came first, and none twice; [date] and [time] are
    among these keys, declared by [#channel] lines like any other column;
    the columns of the returned table other than [date] and [time] are
    the keys of [channels] other than [date] and [time], in that order,
    renamed when [map_variables] is set. *)
Theorem C4_columns_are_the_channel_keys :
  forall (fuel : nat) (fbuf : stream) (map_variables : bool)
         (data : DataFrame Timestamp) (meta : Meta),
    parse fuel fbuf map_variables = Return (data, meta) ->
    let names := Py.keys (meta_channels meta) in
    has_duplicates names = false
    /\ In "date" names /\ In "time" names
    /\ (exists rest (data0 : DataFrame Timestamp),
           read_header fuel fbuf = Return (meta, names, rest)
           /\ read_csv pd rest names na_values = Return data0
           /\ labels data0 = names)
    /\ without_date_time (labels data)
       = map (if map_variables then rename_label MESOR_VARIABLE_MAP
              else fun l => l)
             (without_date_time names).
Proof.
  intros fuel fbuf mv data meta H names.
  pose proof (parse_mesor_labels _ _ _ _ _ H)
    as [Hdup [Hd [Ht [[rest Hh] [timezone [_ Hl]]]]]].
  fold names in Hdup, Hd, Ht, Hh, Hl.
  repeat split; try assumption.
  - apply parse_mesor_returns in H
      as [names0 [rest0 [data0 [_ [Hh0 [Hc _]]]]]].
    rewrite Hh in Hh0. inversion Hh0; subst names0 rest0.
    exists rest, data0. repeat split; try assumption.
    apply read_csv_returns in Hc as [_ [_ ->]].
    apply labels_build_columns.
  - rewrite Hl. unfold without_date_time at 1.
    assert (Hw : forall l, without_date_time (without_date_time l)
                           = without_date_time l).
    { intros l. unfold without_date_time. induction l as [|x l IH];
        [reflexivity|]. cbn [filter].
      destruct (negb (Py.mem x ["date"; "time"])) eqn:E; cbn [filter];
        rewrite ?E, IH; reflexivity. }
    destruct mv.
    + rewrite (filter_map_commute _ _
                 (fun x => negb (Py.mem x ["date"; "time"]))).
      * fold (without_date_time
                (if String.eqb timezone "TST" then names
                 else without_date_time names)).
        destruct (String.eqb timezone "TST"); [reflexivity|now rewrite Hw].
      * intros x. now rewrite rename_date_time.
    + rewrite !map_id.
      fold (without_date_time
              (if String.eqb timezone "TST" then names
               else without_date_time names)).
      destruct (String.eqb timezone "TST"); [reflexivity|now rewrite Hw].
Qed.

(** The rewriting of line 156 on [UTC+N] and [UTC-N], N written with
    digits: the sign stays as written. *)
Lemma tz_name_utc (s N : string) :
  s = "+" \/ s = "-" ->
  all_digits N = true ->
  tz_name ("UTC" ++ s ++ N) = ("Etc/GMT" ++ s ++ N)%string.
Proof.
  intros [-> | ->] HN.
  - unfold tz_name, Py.replace. cbn.
    fold (Py.replace "UTC+" "Etc/GMT+" N).
    rewrite (replace_digits "TC+" "Etc/GMT+" N HN).
    fold (Py.replace "UTC-" "Etc/GMT-" N).
    now rewrite (replace_digits "TC-" "Etc/GMT-" N HN).
  - unfold tz_name, Py.replace. cbn.
    fold (Py.replace "UTC+" "Etc/GMT+" N).
    rewrite (replace_digits "TC+" "Etc/GMT+" N HN).
    fold (Py.replace "UTC-" "Etc/GMT-" N).
    now rewrite (replace_digits "TC-" "Etc/GMT-" N HN).
Qed.

(** C5.  When the parse returns, the time zone read from the header is
    a text, and [to_datetime] has made timestamps of the [date] and
    [time] columns the reader built.  If the zone is [TST] these
    timestamps are the index as they are, so the index is
    timezone-naive exactly when they are (the date and time texts of a
    well-formed file carry no UTC offset, and [to_datetime] gives a
    zone only for texts that do), and the columns [date] and [time] are
    in the table.  Otherwise the timestamps were naive, the
    index is what [tz_localize] made of them in the zone named by the
    rewritten text, which for [UTC+N] and [UTC-N] is the fixed-offset
    zone [Etc/GMT+N] and [Etc/GMT-N], and neither [date] nor [time] is a
    column of the table. *)
Theorem C5_timezone_law :
  forall (fuel : nat) (fbuf : stream) (map_variables : bool)
         (data : DataFrame Timestamp) (meta : Meta),
    parse fuel fbuf map_variables = Return (data, meta) ->
    exists names rest (data0 : DataFrame Timestamp) timezone stamps0 zone0,
      read_header fuel fbuf = Return (meta, names, rest)
      /\ read_csv pd rest names na_values = Return data0
      /\ timestamps_of pd to_datetime data0 stamps0 zone0
      /\ meta_timezone meta = TzStr timezone
      /\ (timezone = "TST" ->
          index data = DatetimeIndex stamps0 zone0
          /\ naive (index data) = negb (has_zone zone0)
          /\ In "date" (labels data) /\ In "time" (labels data))
      /\ (timezone <> "TST" ->
          zone0 = None
          /\ (exists stamps,
                 tz_localize stamps0 (tz_name timezone) = Some stamps
                 /\ index data
                    = DatetimeIndex stamps (Some (tz_name timezone)))
          /\ (forall s N,
                 s = "+" \/ s = "-" -> all_digits N = true ->
                 timezone = ("UTC" ++ s ++ N)%string ->
                 tz_name timezone = ("Etc/GMT" ++ s ++ N)%string)
          /\ ~ In "date" (labels data) /\ ~ In "time" (labels data)).
Proof.
  intros fuel fbuf mv data meta H.
  pose proof (parse_mesor_labels _ _ _ _ _ H)
    as [_ [Hd [Ht [_ [timezone' [Htz' Hl]]]]]].
  apply parse_mesor_index in H
    as [names [rest [data0 [timezone [stamps0 [zone0
         [Hh [Hc [Hts [Htz Hi]]]]]]]]]].
  rewrite Htz in Htz'. inversion Htz'; subst timezone'.
  exists names, rest, data0, timezone, stamps0, zone0.
  repeat (split; [assumption|]).
  set (rn := if mv then rename_label MESOR_VARIABLE_MAP else fun l => l)
    in Hl |- *.
  assert (Hrn : forall x, Py.mem (rn x) ["date"; "time"]
                          = Py.mem x ["date"; "time"]).
  { intros x. unfold rn. destruct mv; [apply rename_date_time|reflexivity]. }
  assert (Hkeep : forall x, Py.mem x ["date"; "time"] = true -> rn x = x).
  { intros x Hx. unfold rn. destruct mv; [|reflexivity].
    apply mem_In in Hx. destruct Hx as [<-|[<-|[]]]; reflexivity. }
  split.
  - intros ->. rewrite String.eqb_refl in Hl, Hi. split; [exact Hi|].
    split; [rewrite Hi; now destruct zone0|].
    rewrite Hl. split.
    + rewrite <- (Hkeep "date" eq_refl). now apply in_map.
    + rewrite <- (Hkeep "time" eq_refl). now apply in_map.
  - intros Hne. apply String.eqb_neq in Hne. rewrite Hne in Hl, Hi.
    destruct Hi as [Hz0 Hi]. split; [exact Hz0|]. split; [exact Hi|].
    split; [intros s N Hs HN ->; now apply tz_name_utc|].
    rewrite Hl.
    assert (Hout : forall l, Py.mem l ["date"; "time"] = true ->
                     ~ In l (map rn (without_date_time
                                       (Py.keys (meta_channels meta))))).
    { intros l Hm Hin. apply in_map_iff in Hin as [x [Hx Hin]].
      unfold without_date_time in Hin. apply filter_In in Hin as [_ Hin].
      rewrite <- Hx, Hrn in Hm. rewrite Hm in Hin. discriminate. }
    split; apply Hout; reflexivity.
Qed.

(** C6.  The zone name is the time zone text with [UTC+] rewritten to
    [Etc/GMT+] and [UTC-] to [Etc/GMT-]: for digits N, [UTC+N] gives
    [Etc/GMT+N] and [UTC-N] gives [Etc/GMT-N], the sign as written.
    This is the zone the timestamps are localized in: when the parse
    returns on a header with the zone [UTC+N] or [UTC-N], [tz_localize]
    was given the naive timestamps of the [date] and [time] columns and
    the name [Etc/GMT+N] or [Etc/GMT-N], its answer is the index, and
    that name is the zone of the index. *)
Theorem C6_zone_name_keeps_the_sign :
  forall (N : string),
    all_digits N = true ->
    tz_name ("UTC+" ++ N) = ("Etc/GMT+" ++ N)%string
    /\ tz_name ("UTC-" ++ N) = ("Etc/GMT-" ++ N)%string
    /\ forall (fuel : nat) (fbuf : stream) (map_variables : bool)
              (data : DataFrame Timestamp) (meta : Meta) (s : string),
        parse fuel fbuf map_variables = Return (data, meta) ->
        (s = "+" \/ s = "-") ->
        meta_timezone meta = TzStr ("UTC" ++ s ++ N) ->
        exists names rest (data0 : DataFrame Timestamp) stamps0 stamps,
          read_header fuel fbuf = Return (meta, names, rest)
          /\ read_csv pd rest names na_values = Return data0
          /\ timestamps_of pd to_datetime data0 stamps0 None
          /\ tz_localize stamps0 ("Etc/GMT" ++ s ++ N) = Some stamps
          /\ index data
             = DatetimeIndex stamps (Some ("Etc/GMT" ++ s ++ N)%string).
Proof.
  intros N HN.
  split; [exact (tz_name_utc "+" N (or_introl eq_refl) HN)|].
  split; [exact (tz_name_utc "-" N (or_intror eq_refl) HN)|].
  intros fuel fbuf mv data meta s H Hs Htz.
  apply parse_mesor_index in H
    as [names [rest [data0 [timezone [stamps0 [zone0
         [Hh [Hc [Hts [Htz' Hi]]]]]]]]]].
  rewrite Htz in Htz'. injection Htz' as <-.
  match type of Hi with
  | if ?b then _ else _ => replace b with false in Hi by reflexivity
  end.
  change (String "U" (String "T" (String "C" (s ++ N))))
    with ("UTC" ++ s ++ N)%string in Hi.
  rewrite (tz_name_utc s N Hs HN) in Hi.
  destruct Hi as [-> [stamps [Hl Hi]]].
  now exists names, rest, data0, stamps0, stamps.
Qed.


(** The reverse dictionary undoes the renaming of a label that is not
    itself one of the names the dictionary maps to. *)
Lemma rename_round_trip (l : string) :
  Py.mem l (map snd MESOR_VARIABLE_MAP) = false ->
  rename_label (reverse_map MESOR_VARIABLE_MAP)
               (rename_label MESOR_VARIABLE_MAP l) = l.
Proof.
  intros Hv.
  assert (Hrev : rename_label (reverse_map MESOR_VARIABLE_MAP) l = l).
  { unfold rename_label, reverse_map, MESOR_VARIABLE_MAP, Py.mem in Hv |- *.
    cbn [map fst snd existsb Py.dict_get] in Hv |- *.
    repeat match goal with
           | |- context [String.eqb ?a l] =>
               destruct (String.eqb_spec a l) as [<-|?]; [discriminate|]
           end.
    reflexivity. }
  unfold rename_label at 2. unfold MESOR_VARIABLE_MAP at 2.
  cbn [Py.dict_get].
  repeat match goal with
         | |- context [String.eqb ?a l] =>
             destruct (String.eqb_spec a l) as [<-|?]; [reflexivity|]
         end.
  exact Hrev.
Qed.

(** C8, as amended.  With [map_variables] set the parse is the parse
    without it followed by the renaming of the columns, and nothing else
    differs.  Without it no renaming occurs: the labels of the returned
    table are the channel codes as the header declares them (all of
    them under [TST], those other than [date] and [time] otherwise).
    The renaming replaces a label that is a key of the dictionary by the
    name the dictionary gives, and leaves every other label alone.  The
    reverse dictionary brings the renamed labels back to the channel
    codes provided none of the codes is itself one of the names the
    dictionary maps to. *)
Theorem C8_renaming :
  forall (fuel : nat) (fbuf : stream) (codes : list string),
    forallb (fun l => negb (Py.mem l (map snd MESOR_VARIABLE_MAP))) codes
    = true ->
    parse fuel fbuf true
    = match parse fuel fbuf false with
      | Return (data, meta) => Return (rename data MESOR_VARIABLE_MAP, meta)
      | Raise e => Raise e
      | OutOfFuel => OutOfFuel
      end
    /\ (forall data meta,
           parse fuel fbuf false = Return (data, meta) ->
           exists timezone,
             meta_timezone meta = TzStr timezone
             /\ labels data
                = if String.eqb timezone "TST"
                  then Py.keys (meta_channels meta)
                  else without_date_time (Py.keys (meta_channels meta)))
    /\ (forall data, labels (@rename Timestamp data MESOR_VARIABLE_MAP)
                     = map (rename_label MESOR_VARIABLE_MAP) (labels data))
    /\ (forall k v, In (k, v) MESOR_VARIABLE_MAP ->
                    rename_label MESOR_VARIABLE_MAP k = v)
    /\ (forall l, ~ In l (Py.keys MESOR_VARIABLE_MAP) ->
                  rename_label MESOR_VARIABLE_MAP l = l)
    /\ map (rename_label (reverse_map MESOR_VARIABLE_MAP))
           (map (rename_label MESOR_VARIABLE_MAP) codes) = codes.
Proof.
  intros fuel fbuf codes Hcodes.
  split; [|split; [|split; [|split; [|split]]]].
  - unfold parse_mesor.
    destruct (read_header fuel fbuf) as [[[meta names] rest]|e|];
      cbn [bind]; try reflexivity.
    destruct (read_csv pd rest names na_values) as [data0|e|];
      cbn [bind]; try reflexivity.
    destruct (index_and_zone _ _ _ _ data0 meta) as [data1|e|];
      cbn [bind]; reflexivity.
  - intros data meta H.
    apply parse_mesor_labels in H as [_ [_ [_ [_ [timezone [Htz Hl]]]]]].
    exists timezone. split; [exact Htz|]. rewrite Hl. apply map_id.
  - intros data. unfold labels, rename. cbn [columns].
    now rewrite !map_map.
  - intros k v Hin. unfold MESOR_VARIABLE_MAP in Hin. cbn [In] in Hin.
    repeat (destruct Hin as [Hin|Hin];
            [inversion Hin; subst; reflexivity|]).
    contradiction.
  - intros l Hl. unfold rename_label. unfold MESOR_VARIABLE_MAP in Hl |- *.
    cbn [Py.dict_get Py.keys map fst In] in Hl |- *.
    repeat match goal with
           | |- context [String.eqb ?a l] =>
               destruct (String.eqb_spec a l) as [<-|?]; [exfalso; tauto|]
           end.
    reflexivity.
  - induction codes as [|c codes IH]; [reflexivity|].
    cbn [forallb] in Hcodes. apply andb_true_iff in Hcodes as [Hc Hcs].
    apply negb_true_iff in Hc. cbn [map].
    now rewrite (rename_round_trip c Hc), (IH Hcs).
Qed.

(** C9.  [read_mesor] on a path returns exactly what [parse_mesor]
    returns on the stream of the file opened there, with the same
    [map_variables] (and raises what [open] raises when there is no such
    file): it is the wrapper that opens the file and hands the parser the
    stream. *)
Theorem C9_read_mesor_opens_then_parses :
  forall (fuel : nat) (filename : string) (map_variables : bool),
    read_mesor pd Timestamp to_datetime tz_localize file_system
               fuel filename map_variables
    = open_then_parse (fun fbuf => parse fuel fbuf map_variables)
                      file_system filename.
Proof.
  intros fuel filename mv. unfold read_mesor, open_then_parse, open.
  destruct (file_system filename) as [text|]; cbn [bind]; [|reflexivity].
  now destruct (parse_mesor _ _ _ _ fuel (file_lines text) mv).
Qed.

(** C10.  When the header reaches [#begindata] and no line before it
    starts with [#timezone], [meta['timezone']] is still the empty
    [dict] it was initialised to, and the parse ends by raising: on
    [.replace] if nothing failed before.  No table is returned. *)
Theorem C10_no_timezone_line_no_table :
  forall (fuel : nat) (fbuf : stream) (map_variables : bool),
    has_begindata (snd (readline fbuf)) = true ->
    forallb (fun l => negb (Py.startswith (Py.rstrip newline l) "#timezone"))
            (header_lines (snd (readline fbuf))) = true ->
    (List.length (header_lines (snd (readline fbuf))) < fuel)%nat ->
    (forall meta names rest,
        read_header fuel fbuf = Return (meta, names, rest) ->
        meta_timezone meta = TzEmptyDict)
    /\ exists e, parse fuel fbuf map_variables = Raise e.
Proof.
  intros fuel fbuf mv Hb Hno Hf.
  assert (Hno' : forall l, In l (header_lines (snd (readline fbuf))) ->
                   Py.startswith (Py.rstrip newline l) "#timezone" = false).
  { intros l Hin. rewrite forallb_forall in Hno.
    apply Hno in Hin. now apply negb_true_iff in Hin. }
  assert (Htz : forall meta names rest,
             read_header fuel fbuf = Return (meta, names, rest) ->
             meta_timezone meta = TzEmptyDict).
  { intros meta names rest H. apply read_header_returns in H as [_ Ht].
    now apply Ht. }
  split; [exact Htz|].
  unfold parse_mesor.
  destruct (read_header fuel fbuf) as [[[meta names] rest]|e|] eqn:E;
    cbn [bind].
  - specialize (Htz _ _ _ eq_refl).
    destruct (read_csv pd rest names na_values) as [data0|e|] eqn:Hc;
      cbn [bind].
    + destruct (index_and_zone_no_timezone data0 meta Htz) as [e He].
      rewrite He. now exists e.
    + now exists e.
    + now apply read_csv_in_fuel in Hc.
  - now exists e.
  - exfalso. unfold read_header in E.
    destruct (readline fbuf) as [first tail]. cbn [snd] in Hb, Hf.
    now apply header_loop_terminates in E.
Qed.

End Properties.

(* ------------------------------------------------------------------ *)
(** ** The parser run on the files *)

(** C2, the scenario as stated.  The header line
    [#comment instrument 12 sensitivity: 14.7 uV/Wm-2] does not store
    14.7: [float] is given the whole value text, unit included, and the
    header scan ends with [ValueError]. *)
Lemma C2_scenario_line_raises :
  header_line sensitivity_line meta0 [] = Raise ValueError
  /\ read_header 20 sensitivity_file = Raise ValueError
  /\ parse_iso 20 sensitivity_file true = Raise ValueError.
Proof.
  split; [vm_compute; reflexivity|].
  split; vm_compute; reflexivity.
Qed.

Lemma C2_calibration_value_is_float_witness :
  Py.startswith "#comment instrument 7 off_cc: -0.25" "#comment instrument"
  = true
  /\ nth_error (Py.split "#comment instrument 7 off_cc: -0.25") 2 = Some "7"
  /\ exists meta',
      header_line "#comment instrument 7 off_cc: -0.25" meta0 []
      = Return (Next meta' [])
      /\ instrument_value meta' "7" "off_cc"
         = Some (PFloat (Py.Dec true 25 (-2))).
Proof.
  split; [reflexivity|]. split; [reflexivity|].
  exact (proj1 (C2_calibration_value_is_float
                  "#comment instrument 7 off_cc: -0.25" meta0 [] "7"
                  eq_refl eq_refl)).
Defined.

(** C3, the scenario as stated.  In [short_row_file] four columns are
    declared and the second row has three fields.  The parse returns
    the table; the cell the row does not reach is the missing marker. *)
Lemma C3_short_row_is_filled :
  map (fun r => List.length (snd r)) (rows_from 1 (skipn 7 short_row_file))
  = [4; 3]
  /\ exists data meta,
      parse_iso 20 short_row_file false = Return (data, meta)
      /\ Py.keys (meta_channels meta) = ["date"; "time"; "GHI"; "NoMV"]
      /\ columns data = [("GHI", [Field "5.0"; Field "12.5"]);
                         ("NoMV", [Field "0"; NaN])].
Proof.
  split; [reflexivity|].
  eexists. eexists. split; [vm_compute; reflexivity|].
  split; reflexivity.
Qed.

Lemma C3_row_field_count_witness :
  (exists meta names rest,
      read_header 20 long_row_file = Return (meta, names, rest)
      /\ has_duplicates names = false
      /\ plain_data rest = true
      /\ find (too_long (width (rows_from 1 rest) names))
              (tl (rows_from 1 rest))
         = Some (2, ["2005-02-01"; "02:00:00"; "12.5"; "7"])
      /\ parse_iso 20 long_row_file true = Raise (ParserError 3 2 4))
  /\ (exists meta names rest,
         read_header 20 short_row_file = Return (meta, names, rest)
         /\ has_duplicates names = false
         /\ plain_data rest = true
         /\ find (too_long (width (rows_from 1 rest) names))
                 (tl (rows_from 1 rest)) = None
         /\ rows_from 1 rest <> []
         /\ forall expected line saw,
             parse_iso 20 short_row_file true
             <> Raise (ParserError expected line saw)).
Proof.
  split.
  - eexists. eexists. eexists.
    split; [vm_compute; reflexivity|].
    split; [reflexivity|]. split; [reflexivity|]. split; [reflexivity|].
    exact (proj2 (proj2
      (proj1 (C3_row_field_count decimals string iso_to_datetime
                etc_tz_localize 20 long_row_file true _ _ _
                eq_refl eq_refl eq_refl)
             2 ["2005-02-01"; "02:00:00"; "12.5"; "7"] eq_refl))).
  - eexists. eexists. eexists.
    split; [vm_compute; reflexivity|].
    split; [reflexivity|]. split; [reflexivity|]. split; [reflexivity|].
    assert (Hrows : rows_from 1 (skipn 7 short_row_file) <> [])
      by (vm_compute; discriminate).
    split; [exact Hrows|].
    exact (proj1
      (proj2 (C3_row_field_count decimals string iso_to_datetime
                etc_tz_localize 20 short_row_file true _ _ _
                eq_refl eq_refl eq_refl)
             eq_refl Hrows)).
Defined.

(** C4, as stated.  In the table parsed from [hourly_file], [date] and
    [time] are keys of [channels], and the columns of the table are not
    all the keys of [channels]. *)
Lemma C4_date_and_time_are_channels :
  exists data meta,
    parse_iso 20 hourly_file false = Return (data, meta)
    /\ Py.keys (meta_channels meta) = ["date"; "time"; "GHI"; "NoMV"]
    /\ In "date" (Py.keys (meta_channels meta))
    /\ In "time" (Py.keys (meta_channels meta))
    /\ labels data = ["GHI"; "NoMV"]
    /\ labels data <> Py.keys (meta_channels meta).
Proof.
  eexists. eexists. split; [vm_compute; reflexivity|].
  cbn. repeat split; auto. discriminate.
Qed.

Lemma C4_columns_are_the_channel_keys_witness :
  exists data meta,
    parse_iso 20 hourly_file true = Return (data, meta)
    /\ without_date_time (labels data)
       = map (rename_label MESOR_VARIABLE_MAP)
             (without_date_time (Py.keys (meta_channels meta))).
Proof.
  eexists. eexists. split; [vm_compute; reflexivity|].
  refine (proj2 (proj2 (proj2 (proj2
    (C4_columns_are_the_channel_keys decimals string iso_to_datetime
       etc_tz_localize 20 hourly_file true _ _ _))))).
  vm_compute; reflexivity.
Defined.

(** C5 on a file in true solar time and on a file in the zone
    [UTC+1]. *)
Lemma C5_timezone_law_witness :
  (exists data meta,
      parse_iso 20 solar_file true = Return (data, meta)
      /\ meta_timezone meta = TzStr "TST"
      /\ exists names rest (data0 : DataFrame string) timezone stamps0 zone0,
          read_header 20 solar_file = Return (meta, names, rest)
          /\ read_csv decimals rest names na_values = Return data0
          /\ timestamps_of decimals iso_to_datetime data0 stamps0 zone0
          /\ meta_timezone meta = TzStr timezone
          /\ (timezone = "TST" ->
              index data = DatetimeIndex stamps0 zone0
              /\ naive (index data) = negb (has_zone zone0)
              /\ In "date" (labels data) /\ In "time" (labels data))
          /\ (timezone <> "TST" ->
              zone0 = None
              /\ (exists stamps,
                     etc_tz_localize stamps0 (tz_name timezone) = Some stamps
                     /\ index data
                        = DatetimeIndex stamps (Some (tz_name timezone)))
              /\ (forall s N,
                     s = "+" \/ s = "-" -> all_digits N = true ->
                     timezone = ("UTC" ++ s ++ N)%string ->
                     tz_name timezone = ("Etc/GMT" ++ s ++ N)%string)
              /\ ~ In "date" (labels data) /\ ~ In "time" (labels data)))
  /\ (exists data meta,
         parse_iso 20 hourly_file true = Return (data, meta)
         /\ meta_timezone meta = TzStr "UTC+1"
         /\ exists names rest (data0 : DataFrame string) timezone stamps0 zone0,
             read_header 20 hourly_file = Return (meta, names, rest)
             /\ read_csv decimals rest names na_values = Return data0
             /\ timestamps_of decimals iso_to_datetime data0 stamps0 zone0
             /\ meta_timezone meta = TzStr timezone
             /\ (timezone = "TST" ->
                 index data = DatetimeIndex stamps0 zone0
                 /\ naive (index data) = negb (has_zone zone0)
                 /\ In "date" (labels data) /\ In "time" (labels data))
             /\ (timezone <> "TST" ->
                 zone0 = None
                 /\ (exists stamps,
                        etc_tz_localize stamps0 (tz_name timezone)
                        = Some stamps
                        /\ index data
                           = DatetimeIndex stamps (Some (tz_name timezone)))
                 /\ (forall s N,
                        s = "+" \/ s = "-" -> all_digits N = true ->
                        timezone = ("UTC" ++ s ++ N)%string ->
                        tz_name timezone = ("Etc/GMT" ++ s ++ N)%string)
                 /\ ~ In "date" (labels data) /\ ~ In "time" (labels data))).
Proof.
  split.
  - eexists. eexists. split; [vm_compute; reflexivity|].
    split; [reflexivity|].
    refine (C5_timezone_law decimals string iso_to_datetime etc_tz_localize
              20 solar_file true _ _ _).
    vm_compute; reflexivity.
  - eexists. eexists. split; [vm_compute; reflexivity|].
    split; [reflexivity|].
    refine (C5_timezone_law decimals string iso_to_datetime etc_tz_localize
              20 hourly_file true _ _ _).
    vm_compute; reflexivity.
Defined.

(** The two files of C5 as the parser leaves them: a naive index with
    the two columns, and an index in the zone [Etc/GMT+1] without
    them. *)
Example solar_and_hourly_index :
  (exists data meta,
      parse_iso 20 solar_file true = Return (data, meta)
      /\ index data
         = DatetimeIndex ["2005-02-01 01:00:00"; "2005-02-01 02:00:00"] None
      /\ labels data = ["date"; "time"; "ghi"])
  /\ (exists data meta,
         parse_iso 20 hourly_file true = Return (data, meta)
         /\ index data
            = DatetimeIndex ["2005-02-01 01:00:00"; "2005-02-01 02:00:00";
                             "2005-02-01 03:00:00"] (Some "Etc/GMT+1")
         /\ labels data = ["ghi"; "NoMV"]).
Proof.
  split; eexists; eexists; (split; [vm_compute; reflexivity|]);
    split; reflexivity.
Qed.

(** Under [TST] the index is what [to_datetime] returns: with a UTC
    offset in the time texts it has the zone of that offset. *)
Example offset_file_index :
  exists data meta,
    parse_iso 20 offset_file true = Return (data, meta)
    /\ meta_timezone meta = TzStr "TST"
    /\ index data
       = DatetimeIndex ["2005-02-01 01:00:00+01:00";
                        "2005-02-01 02:00:00+01:00"] (Some "UTC+01:00").
Proof.
  eexists. eexists. split; [vm_compute; reflexivity|].
  split; reflexivity.
Qed.

Lemma C6_zone_name_keeps_the_sign_witness :
  all_digits "1" = true
  /\ tz_name "UTC+1" = "Etc/GMT+1"
  /\ tz_name "UTC-1" = "Etc/GMT-1"
  /\ exists data meta,
      parse_iso 20 hourly_file true = Return (data, meta)
      /\ meta_timezone meta = TzStr "UTC+1"
      /\ exists names rest (data0 : DataFrame string) stamps0 stamps,
          read_header 20 hourly_file = Return (meta, names, rest)
          /\ read_csv decimals rest names na_values = Return data0
          /\ timestamps_of decimals iso_to_datetime data0 stamps0 None
          /\ etc_tz_localize stamps0 "Etc/GMT+1" = Some stamps
          /\ index data = DatetimeIndex stamps (Some "Etc/GMT+1").
Proof.
  split; [reflexivity|].
  pose proof (C6_zone_name_keeps_the_sign decimals string iso_to_datetime
                etc_tz_localize "1" eq_refl) as [Hplus [Hminus Hparse]].
  split; [exact Hplus|]. split; [exact Hminus|].
  eexists. eexists. split; [vm_compute; reflexivity|].
  split; [reflexivity|].
  refine (Hparse 20 hourly_file true _ _ "+" _ (or_introl eq_refl) _);
    [vm_compute; reflexivity|reflexivity].
Defined.



(** The cells of C7 on [hourly_file]: [-999.9] and [-9999] are missing,
    [12.5] is kept. *)
Example hourly_file_cells :
  exists data meta,
    parse_iso 20 hourly_file false = Return (data, meta)
    /\ columns data = [("GHI", [NaN; Field "12.5"; NaN]);
                       ("NoMV", [Field "0"; Field "3"; Field "7"])].
Proof.
  eexists. eexists. split; [vm_compute; reflexivity|]. reflexivity.
Qed.

(** C8, as stated.  In [lowercase_file] the channel code is [ghi]; the
    renaming leaves it, and the reverse dictionary then gives [GHI],
    which is not the channel code. *)
Lemma C8_reverse_misses_lowercase_code :
  exists data meta,
    parse_iso 20 lowercase_file true = Return (data, meta)
    /\ Py.keys (meta_channels meta) = ["date"; "time"; "ghi"]
    /\ labels data = ["ghi"]
    /\ map (rename_label (reverse_map MESOR_VARIABLE_MAP)) (labels data)
       = ["GHI"]
    /\ map (rename_label (reverse_map MESOR_VARIABLE_MAP)) (labels data)
       <> without_date_time (Py.keys (meta_channels meta)).
Proof.
  eexists. eexists. split; [vm_compute; reflexivity|].
  repeat split; try reflexivity. vm_compute. discriminate.
Qed.

Lemma C8_renaming_witness :
  forallb (fun l => negb (Py.mem l (map snd MESOR_VARIABLE_MAP)))
          ["GHI"; "NoMV"] = true
  /\ (exists data meta,
         parse_iso 20 hourly_file false = Return (data, meta)
         /\ labels data = ["GHI"; "NoMV"]
         /\ exists timezone,
             meta_timezone meta = TzStr timezone
             /\ labels data
                = if String.eqb timezone "TST"
                  then Py.keys (meta_channels meta)
                  else without_date_time (Py.keys (meta_channels meta)))
  /\ (exists data meta,
         parse_iso 20 hourly_file true = Return (data, meta)
         /\ labels data = ["ghi"; "NoMV"])
  /\ map (rename_label (reverse_map MESOR_VARIABLE_MAP))
         (map (rename_label MESOR_VARIABLE_MAP) ["GHI"; "NoMV"])
     = ["GHI"; "NoMV"].
Proof.
  split; [reflexivity|].
  pose proof (C8_renaming decimals string iso_to_datetime etc_tz_localize
                20 hourly_file ["GHI"; "NoMV"] eq_refl)
    as [_ [Hfalse [_ [_ [_ Hrev]]]]].
  split; [|split; [|exact Hrev]].
  - eexists. eexists. split; [vm_compute; reflexivity|].
    split; [reflexivity|].
    refine (Hfalse _ _ _). vm_compute; reflexivity.
  - eexists. eexists. split; [vm_compute; reflexivity|]. reflexivity.
Defined.

Lemma C10_no_timezone_line_no_table_witness :
  has_begindata (snd (readline no_timezone_file)) = true
  /\ (List.length (header_lines (snd (readline no_timezone_file))) < 20)%nat
  /\ exists e, parse_iso 20 no_timezone_file true = Raise e.
Proof.
  split; [reflexivity|]. split; [vm_compute; lia|].
  refine (proj2 (C10_no_timezone_line_no_table decimals string
                   iso_to_datetime etc_tz_localize 20 no_timezone_file true
                   eq_refl eq_refl _)).
  vm_compute; lia.
Defined.

(** The parse of [no_timezone_file] ends on [.replace]. *)
Example no_timezone_file_raises :
  parse_iso 20 no_timezone_file true = Raise AttributeError.
Proof. vm_compute; reflexivity. Qed.

(** [read_mesor] on a file system that holds the text of
    [hourly_file]. *)
Example read_mesor_hourly_file :
  file_lines hourly_text = hourly_file
  /\ read_mesor decimals string iso_to_datetime etc_tz_localize
                (one_file "mesor_test_file.csv" hourly_text)
                20 "mesor_test_file.csv" false
     = parse_iso 20 hourly_file false
  /\ read_mesor decimals string iso_to_datetime etc_tz_localize
                (one_file "mesor_test_file.csv" hourly_text)
                20 "other.csv" false
     = Raise (OSError "other.csv").
Proof.
  split; [vm_compute; reflexivity|].
  split; vm_compute; reflexivity.
Qed.

(** A file written with CR LF line ends is read like the file written
    with LF. *)
Example file_lines_crlf :
  file_lines (String.concat (String carriage_return (String newline ""))
                            ["#MESOR 1.1"; "#begindata"; "1 2"; ""])
  = map nl ["#MESOR 1.1"; "#begindata"; "1 2"].
Proof. vm_compute; reflexivity. Qed.

(* ------------------------------------------------------------------ *)
(** ** The header as a whole *)

(** The fields a header line leaves as they are, and what it adds to
    the others. *)
Lemma header_line_effect (line : string) (meta meta' : Meta)
      (names names' : list string) :
  header_line line meta names = Return (Next meta' names') ->
  meta_format meta' = meta_format meta
  /\ meta_comments meta'
     = meta_comments meta
       ++ (if plain_comment line then [comment_text line] else [])
  /\ names'
     = names ++ (if Py.startswith line "#channel" then second_word line
                 else [])
  /\ meta_timezone meta'
     = (if Py.startswith line "#timezone"
        then match second_word line with
             | t :: _ => TzStr t
             | [] => meta_timezone meta
             end
        else meta_timezone meta).
Proof.
  intros H. unfold plain_comment, second_word, comment_text.
  header_cases H; inversion H; subst; cbn [meta_format meta_comments
    meta_timezone set_IPR set_timezone set_location set_spectral
    set_comments set_instruments set_channels];
    repeat match goal with
           | E : Py.startswith ?l ?p = _ |- context [Py.startswith ?l ?p] =>
               rewrite E
           | E : nth_error (Py.split ?l) 1 = _
             |- context [nth_error (Py.split ?l) 1] => rewrite E
           end;
    cbn [negb andb];
    try (rewrite !app_nil_r; repeat split; reflexivity);
    match goal with
    | E : Py.startswith _ _ = true |- _ =>
        apply startswith_inv in E as [r ->]
    end;
    cbn [negb andb]; rewrite ?app_nil_r; repeat split; reflexivity.
Qed.

Lemma header_lines_no_begindata (fbuf : stream) (l : string) :
  In l (stripped (header_lines fbuf)) ->
  Py.startswith l "#begindata" = false.
Proof.
  induction fbuf as [|x fbuf IH]; [intros []|].
  rewrite header_lines_cons.
  destruct (Py.startswith (Py.rstrip newline x) "#begindata") eqn:E;
    [intros []|].
  intros [<-|Hin]; [exact E|now apply IH].
Qed.

(** A loop that returns has run the body on the header lines, one after
    the other. *)
Lemma header_loop_run (fuel : nat) :
  forall (fbuf : stream) (meta : Meta) (names : list string) meta' names' rest,
    header_loop fuel fbuf meta names = Return (meta', names', rest) ->
    run_lines (stripped (header_lines fbuf)) meta names
    = Return (meta', names').
Proof.
  induction fuel as [|fuel IH]; intros fbuf meta names meta' names' rest H;
    [discriminate|].
  destruct fbuf as [|l fbuf].
  - rewrite header_loop_eof in H. discriminate.
  - rewrite header_loop_step in H. rewrite header_lines_cons.
    destruct (header_line (Py.rstrip newline l) meta names) as [[m n|]|e|] eqn:E;
      cbn [bind] in H; try discriminate.
    + destruct (Py.startswith (Py.rstrip newline l) "#begindata") eqn:B.
      * rewrite (begindata_breaks _ meta names B) in E. discriminate.
      * cbn [stripped map run_lines]. rewrite E. cbn [bind].
        now apply IH in H.
    + inversion H; subst. apply header_line_break in E. now rewrite E.
Qed.

Lemma run_lines_effect (lines : list string) :
  forall (meta meta' : Meta) (names names' : list string),
    (forall l, In l lines -> Py.startswith l "#begindata" = false) ->
    run_lines lines meta names = Return (meta', names') ->
    meta_format meta' = meta_format meta
    /\ meta_comments meta'
       = meta_comments meta ++ map comment_text (filter plain_comment lines)
    /\ names'
       = names ++ flat_map (fun l => if Py.startswith l "#channel"
                                     then second_word l else []) lines
    /\ meta_timezone meta'
       = fold_left (fun tz l => if Py.startswith l "#timezone"
                                then match second_word l with
                                     | t :: _ => TzStr t
                                     | [] => tz
                                     end
                                else tz)
                   lines (meta_timezone meta).
Proof.
  induction lines as [|l lines IH]; intros meta meta' names names' Hb H.
  - inversion H; subst. cbn. now rewrite !app_nil_r.
  - cbn [run_lines] in H.
    destruct (header_line l meta names) as [[m n|]|e|] eqn:E;
      cbn [bind] in H; try discriminate.
    + apply header_line_effect in E as [Ef [Ec [En Et]]].
      apply IH in H as [Hf [Hc [Hn Ht]]];
        [|intros x Hx; apply Hb; now right].
      rewrite Hf, Hc, Hn, Ht, Ef, Ec, En, Et.
      cbn [filter map flat_map fold_left].
      repeat split.
      * destruct (plain_comment l); cbn [map];
          now rewrite <- app_assoc.
      * now rewrite <- app_assoc.
    + apply header_line_break in E. rewrite Hb in E; [discriminate|now left].
Qed.

Lemma read_header_run (fuel : nat) (fbuf : stream) meta names rest :
  read_header fuel fbuf = Return (meta, names, rest) ->
  run_lines (stripped (header_lines (snd (readline fbuf))))
            (set_format (Py.lstrip "#" (Py.rstrip newline (fst (readline fbuf))))
                        meta0) []
  = Return (meta, names).
Proof.
  unfold read_header. destruct (readline fbuf) as [first tail]. cbn [fst snd].
  apply header_loop_run.
Qed.

Lemma read_header_effect (fuel : nat) (fbuf : stream) meta names rest :
  read_header fuel fbuf = Return (meta, names, rest) ->
  meta_format meta
  = Some (Py.lstrip "#" (Py.rstrip newline (fst (readline fbuf))))
  /\ meta_comments meta = comments_of (header_lines (snd (readline fbuf)))
  /\ names = channel_codes (header_lines (snd (readline fbuf)))
  /\ meta_timezone meta = last_timezone (header_lines (snd (readline fbuf))).
Proof.
  intros H. apply read_header_run in H.
  apply run_lines_effect in H; [exact H|].
  intros l. apply (header_lines_no_begindata (snd (readline fbuf))).
Qed.

(** X1.  When the header phase returns, the stream it hands on starts
    right after the first line that starts with [#begindata]: the lines
    read before it are the header lines, none of which starts with
    [#begindata], and every line after it, a further [#begindata] line
    included, is left for the table. *)
Theorem header_ends_at_first_begindata :
  forall (fuel : nat) (fbuf : stream) (meta : Meta) (names : list string)
         (rest : stream),
    read_header fuel fbuf = Return (meta, names, rest) ->
    exists b,
      snd (readline fbuf) = header_lines (snd (readline fbuf)) ++ b :: rest
      /\ Py.startswith (Py.rstrip newline b) "#begindata" = true
      /\ forall l, In l (header_lines (snd (readline fbuf))) ->
                   Py.startswith (Py.rstrip newline l) "#begindata" = false.
Proof.
  intros fuel fbuf meta names rest H. unfold read_header in H.
  destruct (readline fbuf) as [first tail]. cbn [snd].
  apply header_loop_returns in H as [_ [_ [b [Hs Hb]]]].
  exists b. repeat split; try assumption.
  intros l Hin. apply (header_lines_no_begindata tail).
  unfold stripped. now apply in_map.
Qed.

(** X2.  With a [#begindata] line in the stream and one iteration per
    line up to it, the header phase comes to an end: it returns, or one
    of its lines has raised [IndexError] or [ValueError]. *)
Theorem header_phase_ends :
  forall (fuel : nat) (fbuf : stream),
    has_begindata (snd (readline fbuf)) = true ->
    (List.length (header_lines (snd (readline fbuf))) < fuel)%nat ->
    (exists r, read_header fuel fbuf = Return r)
    \/ read_header fuel fbuf = Raise IndexError
    \/ read_header fuel fbuf = Raise ValueError.
Proof.
  intros fuel fbuf Hb Hf. unfold read_header.
  destruct (readline fbuf) as [first tail]. cbn [snd] in Hb, Hf.
  destruct (header_loop fuel tail _ _) as [r|e|] eqn:E.
  - left. now exists r.
  - right. apply header_loop_raises in E as [-> | ->]; auto.
  - now apply header_loop_terminates in E.
Qed.

(** The format has no part in the loop: a loop started with another
    format does the same and hands that format on. *)
Lemma header_line_format (line f : string) (meta : Meta)
      (names : list string) :
  header_line line (set_format f meta) names
  = match header_line line meta names with
    | Return (Next meta' names') => Return (Next (set_format f meta') names')
    | Return Break => Return Break
    | Raise e => Raise e
    | OutOfFuel => OutOfFuel
    end.
Proof.
  unfold header_line, instrument_line, item, float, bind.
  cbn [meta_IPR meta_location meta_spectral meta_comments meta_timezone
       meta_instruments meta_channels meta_format set_format].
  repeat match goal with
         | |- context [match ?x with _ => _ end] =>
             lazymatch x with
             | context [match _ with _ => _ end] => fail
             | _ => destruct x
             end
         end;
    reflexivity.
Qed.

Lemma header_loop_format (fuel : nat) :
  forall (fbuf : stream) (f : string) (meta : Meta) (names : list string),
    header_loop fuel fbuf (set_format f meta) names
    = match header_loop fuel fbuf meta names with
      | Return (meta', names', rest) => Return (set_format f meta', names', rest)
      | Raise e => Raise e
      | OutOfFuel => OutOfFuel
      end.
Proof.
  induction fuel as [|fuel IH]; intros fbuf f meta names; [reflexivity|].
  destruct fbuf as [|l rest].
  - now rewrite !header_loop_eof.
  - rewrite !header_loop_step, header_line_format.
    destruct (header_line (Py.rstrip newline l) meta names) as [[m n|]|e|];
      cbn [bind]; try reflexivity.
    apply IH.
Qed.

(** X3.  [meta['format']] is the first line of the stream without its
    newline and its leading [#] characters (the empty text for an empty
    stream).  The first line is never read as a header line and no
    header line changes the format: with any other first line, one that
    looks like a header line included, the header phase returns the same
    column names, the same rest of the stream and the same metadata but
    for the format. *)
Theorem format_is_the_first_line :
  forall (fuel : nat) (fbuf : stream) (meta : Meta) (names : list string)
         (rest : stream),
    read_header fuel fbuf = Return (meta, names, rest) ->
    meta_format meta
    = Some (Py.lstrip "#" (Py.rstrip newline (hd EmptyString fbuf)))
    /\ forall other : string,
        read_header fuel (other :: tl fbuf)
        = Return (set_format (Py.lstrip "#" (Py.rstrip newline other)) meta,
                  names, rest).
Proof.
  intros fuel fbuf meta names rest H. split.
  - apply read_header_effect in H as [Hf _]. rewrite Hf.
    now destruct fbuf.
  - intros other. unfold read_header in H |- *. cbn [readline].
    assert (Ht : snd (readline fbuf) = tl fbuf) by now destruct fbuf.
    destruct (readline fbuf) as [first tail]. cbn [snd] in Ht. subst tail.
    change (set_format (Py.lstrip "#" (Py.rstrip newline other)) meta0)
      with (set_format (Py.lstrip "#" (Py.rstrip newline other))
              (set_format (Py.lstrip "#" (Py.rstrip newline first)) meta0)).
    now rewrite header_loop_format, H.
Qed.

(** X4.  [meta['comments']] holds, in the order of the file, the text
    of every header line that starts with [#comment] but neither with
    [#comment -] nor with [#comment instrument]: the words after the
    first, joined by single spaces. *)
Theorem comments_are_the_plain_comment_lines :
  forall (fuel : nat) (fbuf : stream) (meta : Meta) (names : list string)
         (rest : stream),
    read_header fuel fbuf = Return (meta, names, rest) ->
    meta_comments meta = comments_of (header_lines (snd (readline fbuf))).
Proof.
  intros fuel fbuf meta names rest H.
  now apply read_header_effect in H as [_ [Hc _]].
Qed.

Lemma first_seen_NoDup_fold (l seen : list string) :
  NoDup seen ->
  NoDup (fold_left (fun seen k => if Py.mem k seen then seen else seen ++ [k])
                   l seen).
Proof.
  revert seen; induction l as [|k l IH]; intros seen Hn; [exact Hn|].
  cbn [fold_left]. apply IH.
  destruct (Py.mem k seen) eqn:E; [exact Hn|].
  apply NoDup_app; [exact Hn|repeat constructor; intros []|].
  intros x Hx [<-|[]]. apply mem_In in Hx. congruence.
Qed.

(** X5.  The column names handed to the reader are the second words of
    the header lines that start with [#channel], in the order of the
    file and with repeats; the keys of [meta['channels']] are these
    codes, each once, where it came first. *)
Theorem names_are_the_channel_codes :
  forall (fuel : nat) (fbuf : stream) (meta : Meta) (names : list string)
         (rest : stream),
    read_header fuel fbuf = Return (meta, names, rest) ->
    names = channel_codes (header_lines (snd (readline fbuf)))
    /\ Py.keys (meta_channels meta) = first_seen names
    /\ NoDup (Py.keys (meta_channels meta))
    /\ forall c, In c names <-> In c (Py.keys (meta_channels meta)).
Proof.
  intros fuel fbuf meta names rest H.
  pose proof (read_header_effect _ _ _ _ _ H) as [_ [_ [Hn _]]].
  apply read_header_returns in H as [Hk _].
  split; [exact Hn|]. split; [exact Hk|]. rewrite Hk. split.
  - apply first_seen_NoDup_fold. constructor.
  - intros c. clear Hn Hk. unfold first_seen.
    assert (G : forall l seen,
               In c (fold_left (fun seen k => if Py.mem k seen then seen
                                              else seen ++ [k]) l seen)
               <-> In c seen \/ In c l).
    { induction l as [|k l IH]; intros seen; cbn [fold_left In]; [tauto|].
      rewrite IH. destruct (Py.mem k seen) eqn:E.
      - apply mem_In in E. split; [tauto|].
        intros [Hs|[<-|Hl]]; tauto.
      - rewrite in_app_iff. cbn [In]. tauto. }
    rewrite G. cbn [In]. tauto.
Qed.

(** X6.  When several header lines start with [#timezone], the value of
    the last one stands; without any, [meta['timezone']] is the empty
    [dict] it was initialised to. *)
Theorem last_timezone_line_wins :
  forall (fuel : nat) (fbuf : stream) (meta : Meta) (names : list string)
         (rest : stream),
    read_header fuel fbuf = Return (meta, names, rest) ->
    meta_timezone meta = last_timezone (header_lines (snd (readline fbuf))).
Proof.
  intros fuel fbuf meta names rest H.
  now apply read_header_effect in H as [_ [_ [_ Ht]]].
Qed.

Lemma passed_over_no_effect (line : string) (meta : Meta) (names : list string) :
  passed_over line = true ->
  header_line line meta names = Return (Next meta names).
Proof.
  unfold passed_over, header_line. cbn [existsb].
  destruct (Py.startswith line "#comment -") eqn:D; [reflexivity|].
  cbn [orb]. rewrite negb_true_iff, !orb_false_iff.
  intros [E1 [E2 [E3 [E4 [E5 [E6 [E7 _]]]]]]].
  rewrite E1, E2, E3, E4, E5, E6, E7.
  destruct (Py.startswith line "#comment instrument") eqn:I; [|reflexivity].
  apply startswith_inv in I as [r ->]. discriminate.
Qed.

Lemma passed_over_not_begindata (line : string) :
  passed_over line = true -> Py.startswith line "#begindata" = false.
Proof.
  intros H.
  destruct (Py.startswith line "#begindata") eqn:B; [|reflexivity].
  apply startswith_inv in B as [r ->]. discriminate.
Qed.

Lemma header_loop_passes_over (pre : list string) :
  forall (fuel : nat) (l : string) (post : stream) (meta : Meta)
         (names : list string),
    passed_over (Py.rstrip newline l) = true ->
    has_begindata pre = false ->
    header_loop fuel (pre ++ post) meta names <> OutOfFuel ->
    header_loop (S fuel) (pre ++ l :: post) meta names
    = header_loop fuel (pre ++ post) meta names.
Proof.
  induction pre as [|p pre IH]; intros fuel l post meta names Hl Hb Hf.
  - cbn [app]. rewrite header_loop_step, (passed_over_no_effect _ _ _ Hl).
    reflexivity.
  - destruct fuel as [|fuel]; [now contradiction Hf|].
    cbn [app] in Hf |- *. rewrite (header_loop_step (S fuel)).
    rewrite header_loop_step in Hf. rewrite (header_loop_step fuel).
    change (has_begindata (p :: pre))
      with (Py.startswith (Py.rstrip newline p) "#begindata"
            || has_begindata pre) in Hb.
    apply orb_false_iff in Hb as [Hp Hpre].
    destruct (header_line (Py.rstrip newline p) meta names) as [[m n|]|e|] eqn:E;
      cbn [bind] in Hf |- *; try reflexivity.
    + now apply IH.
    + apply header_line_break in E. congruence.
Qed.


(* ------------------------------------------------------------------ *)
(** ** Words *)

Lemma word_no_space (s : string) : no_space (Py.word Py.isspace s) = true.
Proof.
  induction s as [|c s IH]; [reflexivity|].
  cbn [Py.word]. destruct (Py.isspace c) eqn:E; [reflexivity|].
  cbn [no_space]. now rewrite E, IH.
Qed.

(** Every piece of [s.split()] is a word. *)
Lemma split_words (s : string) :
  forall (b : bool) (w : string),
    In w (Py.split_from Py.isspace b s) -> is_word w = true.
Proof.
  induction s as [|c s IH]; intros b w H; [destruct H|].
  cbn [Py.split_from] in H. destruct (Py.isspace c) eqn:E.
  - now apply IH in H.
  - destruct b.
    + destruct H as [<-|H]; [|now apply IH in H].
      unfold is_word. rewrite word_no_space.
      cbn [Py.word]. now rewrite E.
    + now apply IH in H.
Qed.

Lemma word_app (w s : string) :
  no_space w = true ->
  Py.word Py.isspace (w ++ String " " s) = w.
Proof.
  induction w as [|c w IH]; intros H; [reflexivity|].
  cbn [no_space] in H. apply andb_true_iff in H as [Hc Hw].
  apply negb_true_iff in Hc.
  cbn [String.append Py.word]. now rewrite Hc, IH.
Qed.

Lemma split_from_false_app (w s : string) :
  no_space w = true ->
  Py.split_from Py.isspace false (w ++ String " " s)
  = Py.split_from Py.isspace true s.
Proof.
  induction w as [|c w IH]; intros H; [reflexivity|].
  cbn [no_space] in H. apply andb_true_iff in H as [Hc Hw].
  apply negb_true_iff in Hc.
  cbn [String.append Py.split_from]. now rewrite Hc, IH.
Qed.

(** A word followed by a space is the first piece of the split. *)
Lemma split_word_space (w s : string) :
  is_word w = true ->
  Py.split (w ++ String " " s) = w :: Py.split s.
Proof.
  unfold is_word, Py.split. intros H. apply andb_true_iff in H as [Hne Hw].
  destruct w as [|c w]; [discriminate|].
  pose proof Hw as Hw'. cbn [no_space] in Hw'.
  apply andb_true_iff in Hw' as [Hc Hw'']. apply negb_true_iff in Hc.
  cbn [String.append Py.split_from]. rewrite Hc.
  change (String c (w ++ String " " s)) with (String c w ++ String " " s)%string.
  now rewrite (word_app _ _ Hw), (split_from_false_app _ _ Hw'').
Qed.

(** X8.  Every column name and the time zone value are words: not empty
    and without whitespace. *)
Theorem names_and_timezone_are_words :
  forall (fuel : nat) (fbuf : stream) (meta : Meta) (names : list string)
         (rest : stream),
    read_header fuel fbuf = Return (meta, names, rest) ->
    (forall n, In n names -> is_word n = true)
    /\ (forall t, meta_timezone meta = TzStr t -> is_word t = true).
Proof.
  intros fuel fbuf meta names rest H.
  apply read_header_effect in H as [_ [_ [Hn Ht]]].
  assert (Hs : forall l w, In w (second_word l) -> is_word w = true).
  { intros l w. unfold second_word.
    destruct (nth_error (Py.split l) 1) as [x|] eqn:E; [|intros []].
    intros [<-|[]]. apply nth_error_In in E.
    now apply (split_words l true). }
  split.
  - intros n Hin. rewrite Hn in Hin. unfold channel_codes in Hin.
    apply in_flat_map in Hin as [l [_ Hl]].
    destruct (Py.startswith l "#channel"); [|destruct Hl].
    now apply (Hs l).
  - rewrite Ht. unfold last_timezone.
    generalize (stripped (header_lines (snd (readline fbuf)))).
    assert (G : forall lines tz,
               (forall t, tz = TzStr t -> is_word t = true) ->
               forall t,
                 fold_left (fun tz l => if Py.startswith l "#timezone"
                                        then match second_word l with
                                             | t :: _ => TzStr t
                                             | [] => tz
                                             end
                                        else tz) lines tz = TzStr t ->
                 is_word t = true).
    { induction lines as [|l lines IH]; intros tz Htz t; cbn [fold_left];
        [apply Htz|].
      apply IH. destruct (Py.startswith l "#timezone"); [|exact Htz].
      destruct (second_word l) as [|x xs] eqn:E; [exact Htz|].
      intros t' Ht'. inversion Ht'; subst. apply (Hs l). rewrite E. now left. }
    intros lines. apply G. discriminate.
Qed.

(* ------------------------------------------------------------------ *)
(** ** Single header lines *)

Lemma dict_get_set_other {V : Type} (k k' : string) (v : V) (d : Py.dict V) :
  k <> k' -> Py.dict_get k' (Py.dict_set k v d) = Py.dict_get k' d.
Proof.
  intros Hne. induction d as [|[x y] d IH]; cbn [Py.dict_set Py.dict_get].
  - destruct (String.eqb_spec k k'); [contradiction|reflexivity].
  - destruct (String.eqb_spec x k) as [->|Hx]; cbn [Py.dict_get].
    + destruct (String.eqb_spec k k'); [contradiction|reflexivity].
    + destruct (String.eqb_spec x k'); [reflexivity|exact IH].
Qed.

Lemma instrument_line_frame :
  forall (line : string) (meta meta' : Meta) (names names' : list string)
         (id param : string),
    header_line line meta names = Return (Next meta' names') ->
    (Py.startswith line "#comment instrument" = true
     /\ nth_error (Py.split line) 2 = Some id
     /\ hd EmptyString (Py.split_on ":" (instrument_description line)) = param)
    \/ instrument_value meta' id param = instrument_value meta id param.
Proof.
  intros line meta meta' names names' id param H.
  destruct (Py.startswith line "#comment instrument") eqn:I.
  - assert (Hl : header_line line meta names = instrument_line line meta names).
    { apply startswith_inv in I as [r ->]. reflexivity. }
    rewrite Hl in H. unfold instrument_line, item, bind in H.
    destruct (nth_error (Py.split line) 2) as [id0|] eqn:Hid; [|discriminate].
    destruct (nth_error (Py.split_on ":" (instrument_description line)) 0)
      as [p0|] eqn:Hp; [|discriminate].
    assert (Hhd : hd EmptyString (Py.split_on ":" (instrument_description line))
                  = p0).
    { destruct (Py.split_on ":" (instrument_description line));
        [discriminate|]. now inversion Hp. }
    set (ins := match Py.dict_get id0 (meta_instruments meta) with
                | Some _ => meta_instruments meta
                | None => Py.dict_set id0 [] (meta_instruments meta)
                end) in H.
    assert (Hins : forall v,
               instrument_value
                 (set_instruments
                    (Py.dict_set id0
                       (Py.dict_set p0 v
                          match Py.dict_get id0 ins with
                          | Some d => d
                          | None => []
                          end) ins) meta) id param
               = instrument_value meta id param
               \/ (id0 = id /\ p0 = param)).
    { intros v. unfold instrument_value. cbn [meta_instruments set_instruments].
      destruct (String.eqb_spec id0 id) as [->|Hne].
      - rewrite dict_get_set.
        destruct (String.eqb_spec p0 param) as [->|Hp']; [now right|].
        left. rewrite (dict_get_set_other _ _ _ _ Hp').
        unfold ins. destruct (Py.dict_get id (meta_instruments meta)) eqn:G.
        + now rewrite G.
        + now rewrite dict_get_set.
      - left. rewrite (dict_get_set_other _ _ _ _ Hne). unfold ins.
        destruct (Py.dict_get id0 (meta_instruments meta));
          [reflexivity|].
        now rewrite (dict_get_set_other _ _ _ _ Hne). }
    destruct (Py.mem p0 _).
    + unfold float in H. destruct (Py.float _) as [x|]; [|discriminate].
      inversion H; subst meta'.
      destruct (Hins (PFloat x)) as [G|[<- <-]]; [now right|left].
      now repeat split.
    + inversion H; subst meta'.
      destruct (Hins (PStr (param_value_text line))) as [G|[<- <-]];
        [now right|left].
      now repeat split.
  - right. unfold instrument_value.
    header_cases H; inversion H; subst; reflexivity.
Qed.

(** X9.  A header line changes the value stored for an instrument and a
    parameter only if it is a [#comment instrument] line for that very
    instrument and parameter: every other stored value, of the same
    instrument or of another, stays as it was. *)
Theorem instrument_values_are_kept :
  forall (line : string) (meta meta' : Meta) (names names' : list string)
         (id param : string),
    header_line line meta names = Return (Next meta' names') ->
    (Py.startswith line "#comment instrument" = true
     /\ nth_error (Py.split line) 2 = Some id
     /\ hd EmptyString (Py.split_on ":" (instrument_description line)) = param)
    \/ instrument_value meta' id param = instrument_value meta id param.
Proof. exact instrument_line_frame. Qed.

Lemma timezone_branch (line : string) (meta : Meta) (names : list string) :
  Py.startswith line "#timezone" = true ->
  header_line line meta names
  = match nth_error (Py.split line) 1 with
    | Some t => Return (Next (set_timezone (TzStr t) meta) names)
    | None => Raise IndexError
    end.
Proof.
  intros H.
  assert (Hl : header_line line meta names
               = (t <- item (Py.split line) 1 ;;
                  Return (Next (set_timezone (TzStr t) meta) names))).
  { apply startswith_inv in H as [r ->]. reflexivity. }
  rewrite Hl. unfold item, bind.
  now destruct (nth_error (Py.split line) 1).
Qed.

Lemma channel_branch (line : string) (meta : Meta) (names : list string) :
  Py.startswith line "#channel" = true ->
  header_line line meta names
  = match nth_error (Py.split line) 1 with
    | Some c =>
        Return (Next (set_channels
                        (Py.dict_set c (Py.join " " (from 2 (Py.split line)))
                                     (meta_channels meta)) meta)
                     (names ++ [c]))
    | None => Raise IndexError
    end.
Proof.
  intros H.
  assert (Hl : header_line line meta names
               = (c <- item (Py.split line) 1 ;;
                  Return (Next (set_channels
                                  (Py.dict_set c
                                     (Py.join " " (from 2 (Py.split line)))
                                     (meta_channels meta)) meta)
                               (names ++ [c])))).
  { apply startswith_inv in H as [r ->]. reflexivity. }
  rewrite Hl. unfold item, bind.
  now destruct (nth_error (Py.split line) 1).
Qed.

(** X11.  A channel line written as [#channel], a space, a code that is
    a word of ASCII characters, a space and a description declares that
    code: the code is the next column name and [meta['channels']] maps
    it to the description with its runs of whitespace collapsed to
    single spaces and none at either end. *)
Theorem channel_line_round_trip :
  forall (code description : string) (meta : Meta) (names : list string),
    is_word code = true ->
    ascii_text code = true ->
    header_line ("#channel " ++ code ++ " " ++ description) meta names
    = Return (Next (set_channels
                      (Py.dict_set code
                                   (Py.join " " (Py.split description))
                                   (meta_channels meta)) meta)
                   (names ++ [code])).
Proof.
  intros code description meta names Hw _.
  assert (Hs : Py.split ("#channel " ++ code ++ " " ++ description)
               = "#channel" :: code :: Py.split description).
  { change ("#channel " ++ code ++ " " ++ description)%string
      with ("#channel" ++ String " " (code ++ String " " description))%string.
    rewrite (split_word_space "#channel" _ eq_refl).
    now rewrite (split_word_space code _ Hw). }
  rewrite (channel_branch ("#channel " ++ code ++ " " ++ description)
                          meta names eq_refl), Hs.
  reflexivity.
Qed.

(* ------------------------------------------------------------------ *)
(** ** After the header *)

Lemma lookup_absent (label : string) (cols : list (string * list cell)) :
  Py.mem label (map fst cols) = false -> lookup label cols = None.
Proof.
  induction cols as [|[l c] cols IH]; [reflexivity|].
  unfold Py.mem. cbn [map fst existsb lookup].
  rewrite orb_false_iff, (String.eqb_sym label l). intros [E H].
  rewrite E. now apply IH.
Qed.

Lemma lookup_present (label : string) (cols : list (string * list cell)) :
  Py.mem label (map fst cols) = true -> exists c, lookup label cols = Some c.
Proof.
  induction cols as [|[l c] cols IH]; [discriminate|].
  unfold Py.mem. cbn [map fst existsb lookup].
  rewrite (String.eqb_sym label l).
  destruct (String.eqb l label); [now exists c|exact IH].
Qed.

(** No occurrence, nothing replaced. *)
Lemma replace_absent (old new s : string) :
  occurs old s = false -> Py.replace old new s = s.
Proof.
  unfold Py.replace. induction s as [|c s IH]; [reflexivity|].
  cbn [occurs]. rewrite orb_false_iff. intros [H Hs].
  cbn [Py.replace_from]. now rewrite H, (IH Hs).
Qed.

(** Renaming a label that was renamed leaves it. *)
Lemma rename_label_idempotent (l : string) :
  rename_label MESOR_VARIABLE_MAP (rename_label MESOR_VARIABLE_MAP l)
  = rename_label MESOR_VARIABLE_MAP l.
Proof.
  unfold rename_label at 2. unfold MESOR_VARIABLE_MAP at 2.
  cbn [Py.dict_get].
  repeat match goal with
         | |- context [String.eqb ?a l] =>
             destruct (String.eqb_spec a l) as [<-|?]; [reflexivity|]
         end.
  reflexivity.
Qed.

Section MoreProperties.

Variable pd : Library.
Variable Timestamp : Type.
Variable to_datetime : list cell -> option (list Timestamp * option string).
Variable tz_localize : list Timestamp -> string -> option (list Timestamp).

Local Notation "'parse'" := (parse_mesor pd Timestamp to_datetime tz_localize).

(** X7.  A decoration line ([#comment -]), an empty line or a line that
    starts with none of the known prefixes, put anywhere among the
    header lines, changes nothing: the parse of the longer file, given
    one more iteration, is the parse of the file without that line. *)
Theorem header_passes_over_unknown_lines :
  forall (fuel : nat) (first l : string) (pre post : stream)
         (map_variables : bool),
    passed_over (Py.rstrip newline l) = true ->
    has_begindata pre = false ->
    parse fuel (first :: pre ++ post) map_variables <> OutOfFuel ->
    parse (S fuel) (first :: pre ++ l :: post) map_variables
    = parse fuel (first :: pre ++ post) map_variables.
Proof.
  intros fuel first l pre post mv Hl Hb Hf.
  unfold parse_mesor, read_header in Hf |- *. cbn [readline] in Hf |- *.
  rewrite header_loop_passes_over; [reflexivity|exact Hl|exact Hb|].
  intros E. rewrite E in Hf. now apply Hf.
Qed.

(** X12.  The header must declare a channel named [date] and one named
    [time]: when the rows (of data lines without quotes and carriage
    returns) have been read and no [#channel] line has the
    code [date], the parse fails with [KeyError] on [date].  When [date]
    is declared but [time] is not, it fails as well: the space is added
    to the [date] column before the [time] column is looked up, so the
    parse fails with [TypeError] when that addition is refused (a [date]
    column of numbers), and with [KeyError] on [time] otherwise. *)
Theorem date_and_time_must_be_declared :
  forall (fuel : nat) (fbuf : stream) (map_variables : bool)
         (meta : Meta) (names : list string) (rest : stream)
         (data0 : DataFrame Timestamp),
    read_header fuel fbuf = Return (meta, names, rest) ->
    plain_data rest = true ->
    read_csv pd rest names na_values = Return data0 ->
    (Py.mem "date" names = false ->
     parse fuel fbuf map_variables = Raise (KeyError "date"))
    /\ (Py.mem "date" names = true -> Py.mem "time" names = false ->
        exists date,
          lookup "date" (columns data0) = Some date
          /\ parse fuel fbuf map_variables
             = match series_add_str pd date " " with
               | Some _ => Raise (KeyError "time")
               | None => Raise TypeError
               end).
Proof.
  intros fuel fbuf mv meta names rest data0 Hh Hplain Hc.
  assert (Hl : map fst (columns data0) = names).
  { apply read_csv_returns in Hc as [_ [_ ->]]. apply labels_build_columns. }
  unfold parse_mesor. rewrite Hh. cbn [bind]. rewrite Hc. cbn [bind].
  unfold index_and_zone, date_time_index, getitem, add_str. split.
  - intros Hd. rewrite <- Hl in Hd. now rewrite (lookup_absent _ _ Hd).
  - intros Hd Ht. rewrite <- Hl in Hd, Ht.
    destruct (lookup_present _ _ Hd) as [c Hdate]. exists c.
    split; [exact Hdate|]. rewrite Hdate. cbn [bind].
    destruct (series_add_str pd c " "); cbn [bind]; [|reflexivity].
    now rewrite (lookup_absent _ _ Ht).
Qed.

(** X13.  A channel code declared by two [#channel] lines makes the
    parse fail with [ValueError]: the column names are handed to the
    reader with the repeat, and the reader refuses them before it reads
    a row. *)
Theorem repeated_channel_code_is_refused :
  forall (fuel : nat) (fbuf : stream) (map_variables : bool)
         (meta : Meta) (names : list string) (rest : stream),
    read_header fuel fbuf = Return (meta, names, rest) ->
    has_duplicates (channel_codes (header_lines (snd (readline fbuf)))) = true ->
    parse fuel fbuf map_variables = Raise ValueError.
Proof.
  intros fuel fbuf mv meta names rest Hh Hd.
  pose proof (read_header_effect _ _ _ _ _ Hh) as [_ [_ [Hn _]]].
  rewrite <- Hn in Hd.
  unfold parse_mesor. rewrite Hh. cbn [bind]. unfold read_csv.
  now rewrite Hd.
Qed.

(** X14.  The returned table has one row for every line of the data
    section that is neither empty, nor made of blanks only, nor a
    comment from its first character on: every column holds exactly
    that many cells, so a short row drops none.  A line whose comment
    starts after leading blanks is such a row, and all its cells are the
    missing marker.  (Data lines without quotes and carriage
    returns.) *)
Theorem one_cell_per_data_row :
  forall (fuel : nat) (fbuf : stream) (map_variables : bool)
         (data : DataFrame Timestamp) (meta : Meta)
         (names : list string) (rest : stream),
    parse fuel fbuf map_variables = Return (data, meta) ->
    read_header fuel fbuf = Return (meta, names, rest) ->
    plain_data rest = true ->
    forall label cells,
      In (label, cells) (columns data) ->
      List.length cells = List.length (data_lines rest)
      /\ forall k line,
          nth_error rest k = Some line ->
          is_row line = true ->
          fields line = [] ->
          nth_error cells (row_index rest k) = Some NaN.
Proof.
  intros fuel fbuf mv data meta names rest H Hh Hplain label cells Hin.
  destruct (parse_mesor_columns pd Timestamp to_datetime tz_localize
              _ _ _ _ _ _ _ H Hh label cells Hin)
    as [j [name [_ [_ Hcells]]]].
  rewrite Hcells. unfold column_texts. split.
  - rewrite length_convert, length_map. apply length_rows_from.
  - intros k line Hk Hs Hf.
    apply (convert_short _ _ _ _ _ _ (1 + k) (fields line)).
    + now apply rows_from_line.
    + rewrite Hf. cbn [length]. lia.
Qed.

(** X15.  A time zone text other than [TST] in which neither [UTC+] nor
    [UTC-] occurs (a zone name such as [Europe/Berlin], or plain [UTC])
    is handed to [tz_localize] as it is, together with the naive
    timestamps of the [date] and [time] columns; the answer is the index
    of the returned table, and the text is its zone. *)
Theorem other_zone_names_pass_through :
  forall (timezone : string),
    occurs "UTC+" timezone = false ->
    occurs "UTC-" timezone = false ->
    tz_name timezone = timezone
    /\ forall (fuel : nat) (fbuf : stream) (map_variables : bool)
              (data : DataFrame Timestamp) (meta : Meta),
        parse fuel fbuf map_variables = Return (data, meta) ->
        meta_timezone meta = TzStr timezone ->
        timezone <> "TST" ->
        exists names rest (data0 : DataFrame Timestamp) stamps0 stamps,
          read_header fuel fbuf = Return (meta, names, rest)
          /\ read_csv pd rest names na_values = Return data0
          /\ timestamps_of pd to_datetime data0 stamps0 None
          /\ tz_localize stamps0 timezone = Some stamps
          /\ index data = DatetimeIndex stamps (Some timezone).
Proof.
  intros timezone Hp Hm.
  assert (Hn : tz_name timezone = timezone).
  { unfold tz_name. now rewrite (replace_absent _ _ _ Hp), replace_absent. }
  split; [exact Hn|].
  intros fuel fbuf mv data meta H Htz Hne.
  apply parse_mesor_index in H
    as [names [rest [data0 [timezone' [stamps0 [zone0
         [Hh [Hc [Hts [Htz' Hi]]]]]]]]]].
  rewrite Htz in Htz'. injection Htz' as <-.
  apply String.eqb_neq in Hne. rewrite Hne, Hn in Hi.
  destruct Hi as [-> [stamps [Hl Hi]]].
  now exists names, rest, data0, stamps0, stamps.
Qed.

(** X16.  None of the names the dictionary maps to is one of its keys,
    so the renaming is idempotent: renaming the columns of a table that
    was renamed changes nothing. *)
Theorem renaming_is_idempotent :
  forall (data : DataFrame Timestamp),
    rename (rename data MESOR_VARIABLE_MAP) MESOR_VARIABLE_MAP
    = rename data MESOR_VARIABLE_MAP.
Proof.
  intros data. unfold rename. cbn [columns index]. f_equal.
  rewrite map_map. apply map_ext. intros [l c]. cbn [fst snd].
  now rewrite rename_label_idempotent.
Qed.

End MoreProperties.

(* ------------------------------------------------------------------ *)
(** ** Calibration values, truncated headers, true solar time *)

(** What an instrument line stores. *)
Lemma instrument_line_value (line : string) (meta meta' : Meta)
      (names names' : list string) (id : string) :
  header_line line meta names = Return (Next meta' names') ->
  Py.startswith line "#comment instrument" = true ->
  nth_error (Py.split line) 2 = Some id ->
  let param := hd EmptyString (Py.split_on ":" (instrument_description line)) in
  exists v,
    instrument_value meta' id param = Some v
    /\ if Py.mem param ["mult_cc"; "off_cc"; "sensitivity"]
       then exists x, v = PFloat x
       else v = PStr (param_value_text line).
Proof.
  intros H I Hid param.
  assert (Hl : header_line line meta names = instrument_line line meta names).
  { apply startswith_inv in I as [r ->]. reflexivity. }
  rewrite Hl in H. unfold instrument_line, item, bind in H. rewrite Hid in H.
  assert (Hp : nth_error (Py.split_on ":" (instrument_description line)) 0
               = Some param).
  { unfold param.
    destruct (instrument_description line) as [|c d]; [reflexivity|].
    cbn [Py.split_on]. destruct (Ascii.eqb c ":"); [reflexivity|].
    now destruct (Py.split_on ":" d). }
  rewrite Hp in H.
  destruct (Py.mem param _).
  - unfold float in H. destruct (Py.float _) as [x|]; [|discriminate].
    inversion H; subst meta'. exists (PFloat x). split; [|now exists x].
    unfold instrument_value. cbn [meta_instruments set_instruments].
    now rewrite !dict_get_set.
  - inversion H; subst meta'. eexists. split; [|reflexivity].
    unfold instrument_value. cbn [meta_instruments set_instruments].
    now rewrite !dict_get_set.
Qed.

Lemma header_line_typed (line : string) (meta meta' : Meta)
      (names names' : list string) :
  header_line line meta names = Return (Next meta' names') ->
  calibration_typed meta -> calibration_typed meta'.
Proof.
  intros H Ht id param v Hv.
  destruct (instrument_line_frame line meta meta' names names' id param H)
    as [[I [Hid Hp]]|Heq].
  - destruct (instrument_line_value _ _ _ _ _ id H I Hid) as [v' [Hv' Hk]].
    rewrite Hp in Hv', Hk. rewrite Hv in Hv'. inversion Hv'; subst v'.
    destruct (Py.mem param _); [exact Hk|eexists; exact Hk].
  - rewrite Heq in Hv. exact (Ht id param v Hv).
Qed.

Lemma run_lines_typed (lines : list string) :
  forall (meta meta' : Meta) (names names' : list string),
    run_lines lines meta names = Return (meta', names') ->
    calibration_typed meta -> calibration_typed meta'.
Proof.
  induction lines as [|l lines IH]; intros meta meta' names names' H Ht.
  - now inversion H; subst.
  - cbn [run_lines] in H.
    destruct (header_line l meta names) as [[m n|]|e|] eqn:E;
      cbn [bind] in H; try discriminate.
    + apply (IH _ _ _ _ H). exact (header_line_typed _ _ _ _ _ E Ht).
    + now inversion H; subst.
Qed.

(** X17.  In the metadata the header phase returns, every value stored
    under the parameter names [mult_cc], [off_cc] and [sensitivity] is
    a float and every value stored under another parameter name is a
    text, for every instrument. *)
Theorem calibration_values_are_floats :
  forall (fuel : nat) (fbuf : stream) (meta : Meta) (names : list string)
         (rest : stream),
    read_header fuel fbuf = Return (meta, names, rest) ->
    calibration_typed meta.
Proof.
  intros fuel fbuf meta names rest H. apply read_header_run in H.
  apply (run_lines_typed _ _ _ _ _ H).
  intros id param v Hv. discriminate.
Qed.

Section MoreParse.

Variable pd : Library.
Variable Timestamp : Type.
Variable to_datetime : list cell -> option (list Timestamp * option string).
Variable tz_localize : list Timestamp -> string -> option (list Timestamp).

Local Notation "'parse'" := (parse_mesor pd Timestamp to_datetime tz_localize).

(** X19.  A stream without a line that starts with [#begindata] after
    its first line never yields a result, whatever it holds: after any
    number of iterations the parse is still in the header loop, or a
    header line has raised [IndexError] or [ValueError]. *)
Theorem no_begindata_no_result :
  forall (fuel : nat) (fbuf : stream) (map_variables : bool),
    has_begindata (snd (readline fbuf)) = false ->
    (forall r, parse fuel fbuf map_variables <> Return r)
    /\ (parse fuel fbuf map_variables = OutOfFuel
        \/ parse fuel fbuf map_variables = Raise IndexError
        \/ parse fuel fbuf map_variables = Raise ValueError).
Proof.
  intros fuel fbuf mv Hb. split.
  - intros r. now apply truncated_header_never_returns.
  - now apply truncated_header_loops_or_raises.
Qed.

End MoreParse.

(** X20.  Under true solar time the zone database is never consulted:
    when the header gives the time zone [TST], the parse is the same
    whatever [tz_localize] would do. *)
Theorem solar_time_is_never_localized :
  forall (pd : Library) (Timestamp : Type)
         (to_datetime : list cell -> option (list Timestamp * option string))
         (tz_localize tz_localize' : list Timestamp -> string
                                     -> option (list Timestamp))
         (fuel : nat) (fbuf : stream) (map_variables : bool)
         (meta : Meta) (names : list string) (rest : stream),
    read_header fuel fbuf = Return (meta, names, rest) ->
    meta_timezone meta = TzStr "TST" ->
    parse_mesor pd Timestamp to_datetime tz_localize fuel fbuf map_variables
    = parse_mesor pd Timestamp to_datetime tz_localize' fuel fbuf
                  map_variables.
Proof.
  intros pd T td tzl tzl' fuel fbuf mv meta names rest Hh Htz.
  unfold parse_mesor. rewrite Hh. cbn [bind].
  destruct (read_csv pd rest names na_values) as [data0|e|]; cbn [bind];
    try reflexivity.
  unfold index_and_zone. rewrite Htz. reflexivity.
Qed.

(* ------------------------------------------------------------------ *)
(** ** The further properties on the files *)

Lemma header_ends_at_first_begindata_witness :
  exists meta names rest,
    read_header 30 untidy_header = Return (meta, names, rest)
    /\ exists b,
        snd (readline untidy_header)
        = header_lines (snd (readline untidy_header)) ++ b :: rest
        /\ Py.startswith (Py.rstrip newline b) "#begindata" = true
        /\ forall l, In l (header_lines (snd (readline untidy_header))) ->
                     Py.startswith (Py.rstrip newline l) "#begindata" = false.
Proof.
  eexists. eexists. eexists. split; [vm_compute; reflexivity|].
  refine (header_ends_at_first_begindata 30 untidy_header _ _ _ _).
  vm_compute; reflexivity.
Defined.

Lemma header_phase_ends_witness :
  has_begindata (snd (readline hourly_file)) = true
  /\ (List.length (header_lines (snd (readline hourly_file))) < 20)%nat
  /\ ((exists r, read_header 20 hourly_file = Return r)
      \/ read_header 20 hourly_file = Raise IndexError
      \/ read_header 20 hourly_file = Raise ValueError).
Proof.
  split; [reflexivity|]. split; [vm_compute; lia|].
  refine (header_phase_ends 20 hourly_file eq_refl _).
  vm_compute; lia.
Defined.

Lemma format_is_the_first_line_witness :
  exists meta names rest,
    read_header 30 untidy_header = Return (meta, names, rest)
    /\ meta_format meta = Some "MESOR 1.1"
    /\ names = ["date"; "time"; "GHI"; "GHI"]
    /\ meta_format meta
       = Some (Py.lstrip "#" (Py.rstrip newline (hd EmptyString untidy_header)))
    /\ read_header 30 (nl "#channel x y" :: tl untidy_header)
       = Return (set_format "channel x y" meta, names, rest).
Proof.
  eexists. eexists. eexists. split; [vm_compute; reflexivity|].
  split; [reflexivity|]. split; [reflexivity|].
  pose proof (format_is_the_first_line 30 untidy_header _ _ _ eq_refl)
    as [Hf Hother].
  split; [exact Hf|]. exact (Hother (nl "#channel x y")).
Defined.

Lemma comments_are_the_plain_comment_lines_witness :
  exists meta names rest,
    read_header 30 untidy_header = Return (meta, names, rest)
    /\ meta_comments meta
       = comments_of (header_lines (snd (readline untidy_header))).
Proof.
  eexists. eexists. eexists. split; [vm_compute; reflexivity|].
  refine (comments_are_the_plain_comment_lines 30 untidy_header _ _ _ _).
  vm_compute; reflexivity.
Defined.

Lemma names_are_the_channel_codes_witness :
  exists meta names rest,
    read_header 30 untidy_header = Return (meta, names, rest)
    /\ names = channel_codes (header_lines (snd (readline untidy_header)))
    /\ Py.keys (meta_channels meta) = first_seen names
    /\ NoDup (Py.keys (meta_channels meta))
    /\ forall c, In c names <-> In c (Py.keys (meta_channels meta)).
Proof.
  eexists. eexists. eexists. split; [vm_compute; reflexivity|].
  refine (names_are_the_channel_codes 30 untidy_header _ _ _ _).
  vm_compute; reflexivity.
Defined.

Lemma last_timezone_line_wins_witness :
  exists meta names rest,
    read_header 30 untidy_header = Return (meta, names, rest)
    /\ meta_timezone meta
       = last_timezone (header_lines (snd (readline untidy_header))).
Proof.
  eexists. eexists. eexists. split; [vm_compute; reflexivity|].
  refine (last_timezone_line_wins 30 untidy_header _ _ _ _).
  vm_compute; reflexivity.
Defined.

Lemma header_passes_over_unknown_lines_witness :
  passed_over (Py.rstrip newline (nl "")) = true
  /\ parse_iso 11 (nl "#MESOR 1.1"
                      :: map nl ["#timezone TST"; "#channel date d"]
                      ++ nl ""
                      :: map nl ["#channel time t"; "#begindata";
                                 "2005-02-01 01:00:00"]) true
     = parse_iso 10 (nl "#MESOR 1.1"
                        :: map nl ["#timezone TST"; "#channel date d"]
                        ++ map nl ["#channel time t"; "#begindata";
                                   "2005-02-01 01:00:00"]) true.
Proof.
  split; [reflexivity|].
  refine (header_passes_over_unknown_lines decimals string iso_to_datetime
            etc_tz_localize 10 (nl "#MESOR 1.1") (nl "")
            (map nl ["#timezone TST"; "#channel date d"])
            (map nl ["#channel time t"; "#begindata"; "2005-02-01 01:00:00"])
            true eq_refl eq_refl _).
  vm_compute. discriminate.
Defined.

Lemma names_and_timezone_are_words_witness :
  exists meta names rest,
    read_header 30 untidy_header = Return (meta, names, rest)
    /\ (forall n, In n names -> is_word n = true)
    /\ (forall t, meta_timezone meta = TzStr t -> is_word t = true).
Proof.
  eexists. eexists. eexists. split; [vm_compute; reflexivity|].
  refine (names_and_timezone_are_words 30 untidy_header _ _ _ _).
  vm_compute; reflexivity.
Defined.

Lemma instrument_values_are_kept_witness :
  exists meta',
    header_line "#comment instrument 3 name: CM11"
                (set_instruments [("3", [("sensitivity",
                                          PFloat (Py.Dec false 147 (-1)))])]
                                 meta0) []
    = Return (Next meta' [])
    /\ instrument_value meta' "3" "sensitivity"
       = Some (PFloat (Py.Dec false 147 (-1))).
Proof.
  eexists. split; [vm_compute; reflexivity|].
  destruct (instrument_values_are_kept
              "#comment instrument 3 name: CM11"
              (set_instruments [("3", [("sensitivity",
                                        PFloat (Py.Dec false 147 (-1)))])]
                               meta0) _ [] [] "3" "sensitivity" eq_refl)
    as [[_ [_ H]]|H].
  - discriminate H.
  - exact H.
Defined.

Lemma channel_line_round_trip_witness :
  is_word "GHI" = true
  /\ ascii_text "GHI" = true
  /\ header_line ("#channel " ++ "GHI" ++ " " ++ "Global   irradiance ")
                 meta0 ["date"]
     = Return (Next (set_channels [("GHI", "Global irradiance")] meta0)
                    ["date"; "GHI"]).
Proof.
  split; [reflexivity|]. split; [reflexivity|].
  exact (channel_line_round_trip "GHI" "Global   irradiance " meta0 ["date"]
                                 eq_refl eq_refl).
Defined.

Lemma date_and_time_must_be_declared_witness :
  (exists meta names rest (data0 : DataFrame string),
      read_header 20 no_date_file = Return (meta, names, rest)
      /\ plain_data rest = true
      /\ read_csv decimals rest names na_values = Return data0
      /\ Py.mem "date" names = false
      /\ parse_iso 20 no_date_file true = Raise (KeyError "date"))
  /\ (exists meta names rest (data0 : DataFrame string),
         read_header 20 no_time_file = Return (meta, names, rest)
         /\ plain_data rest = true
         /\ read_csv decimals rest names na_values = Return data0
         /\ Py.mem "date" names = true
         /\ Py.mem "time" names = false
         /\ exists date,
             lookup "date" (columns data0) = Some date
             /\ parse_iso 20 no_time_file true
                = match series_add_str decimals date " " with
                  | Some _ => Raise (KeyError "time")
                  | None => Raise TypeError
                  end).
Proof.
  split.
  - eexists. eexists. eexists. eexists.
    split; [vm_compute; reflexivity|].
    split; [reflexivity|].
    split; [vm_compute; reflexivity|].
    split; [reflexivity|].
    refine (proj1 (date_and_time_must_be_declared decimals string
                     iso_to_datetime etc_tz_localize 20 no_date_file true
                     _ _ _ _ _ _ _) _).
    + vm_compute; reflexivity.
    + reflexivity.
    + vm_compute; reflexivity.
    + reflexivity.
  - eexists. eexists. eexists. eexists.
    split; [vm_compute; reflexivity|].
    split; [reflexivity|].
    split; [vm_compute; reflexivity|].
    split; [reflexivity|]. split; [reflexivity|].
    refine (proj2 (date_and_time_must_be_declared decimals string
                     iso_to_datetime etc_tz_localize 20 no_time_file true
                     _ _ _ _ _ _ _) _ _).
    + vm_compute; reflexivity.
    + reflexivity.
    + vm_compute; reflexivity.
    + reflexivity.
    + reflexivity.
Defined.

(** On [no_time_file], whose dates are written with digits only, the
    parse ends on the addition. *)
Example no_time_file_raises :
  parse_iso 20 no_time_file true = Raise TypeError.
Proof. vm_compute; reflexivity. Qed.

Lemma repeated_channel_code_is_refused_witness :
  has_duplicates (channel_codes (header_lines (snd (readline untidy_header))))
  = true
  /\ parse_iso 30 untidy_header true = Raise ValueError.
Proof.
  split; [reflexivity|].
  refine (repeated_channel_code_is_refused decimals string iso_to_datetime
            etc_tz_localize 30 untidy_header true _ _ _ _ eq_refl).
  vm_compute; reflexivity.
Defined.

Lemma one_cell_per_data_row_witness :
  exists data meta names rest,
    parse_iso 20 remarks_file true = Return (data, meta)
    /\ read_header 20 remarks_file = Return (meta, names, rest)
    /\ plain_data rest = true
    /\ List.length rest = 6
    /\ List.length (data_lines rest) = 3
    /\ forall label cells,
        In (label, cells) (columns data) ->
        List.length cells = List.length (data_lines rest)
        /\ forall k line,
            nth_error rest k = Some line ->
            is_row line = true ->
            fields line = [] ->
            nth_error cells (row_index rest k) = Some NaN.
Proof.
  eexists. eexists. eexists. eexists.
  split; [vm_compute; reflexivity|].
  split; [vm_compute; reflexivity|].
  split; [vm_compute; reflexivity|].
  split; [reflexivity|]. split; [reflexivity|].
  refine (one_cell_per_data_row decimals string iso_to_datetime
            etc_tz_localize 20 remarks_file true _ _ _ _ _ _ _).
  - vm_compute; reflexivity.
  - vm_compute; reflexivity.
  - vm_compute; reflexivity.
Defined.

(** The table of [remarks_file]: the line with a remark after blanks is
    the second of three rows. *)
Example remarks_file_rows :
  exists data meta,
    parse_iso 20 remarks_file false = Return (data, meta)
    /\ columns data
       = [("date", [Field "2005-02-01"; NaN; Field "2005-02-01"]);
          ("time", [Field "01:00:00"; NaN; Field "02:00:00"]);
          ("GHI", [Field "5.0"; NaN; Field "12.5"])].
Proof.
  eexists. eexists. split; [vm_compute; reflexivity|]. reflexivity.
Qed.

Lemma other_zone_names_pass_through_witness :
  occurs "UTC+" "Etc/GMT-3" = false
  /\ occurs "UTC-" "Etc/GMT-3" = false
  /\ tz_name "Etc/GMT-3" = "Etc/GMT-3"
  /\ exists data meta,
      parse_iso 20 zone_name_file true = Return (data, meta)
      /\ meta_timezone meta = TzStr "Etc/GMT-3"
      /\ exists names rest (data0 : DataFrame string) stamps0 stamps,
          read_header 20 zone_name_file = Return (meta, names, rest)
          /\ read_csv decimals rest names na_values = Return data0
          /\ timestamps_of decimals iso_to_datetime data0 stamps0 None
          /\ etc_tz_localize stamps0 "Etc/GMT-3" = Some stamps
          /\ index data = DatetimeIndex stamps (Some "Etc/GMT-3").
Proof.
  split; [reflexivity|]. split; [reflexivity|].
  pose proof (other_zone_names_pass_through decimals string iso_to_datetime
                etc_tz_localize "Etc/GMT-3" eq_refl eq_refl) as [Hn Hparse].
  split; [exact Hn|].
  eexists. eexists. split; [vm_compute; reflexivity|].
  split; [reflexivity|].
  refine (Hparse 20 zone_name_file true _ _ _ _ _);
    [vm_compute; reflexivity|reflexivity|discriminate].
Defined.

Lemma calibration_values_are_floats_witness :
  exists meta names rest,
    read_header 20 hourly_file = Return (meta, names, rest)
    /\ calibration_typed meta.
Proof.
  eexists. eexists. eexists. split; [vm_compute; reflexivity|].
  refine (calibration_values_are_floats 20 hourly_file _ _ _ _).
  vm_compute; reflexivity.
Defined.

Lemma no_begindata_no_result_witness :
  has_begindata (snd (readline truncated_file)) = false
  /\ (forall r, parse_iso 9 truncated_file true <> Return r)
  /\ (parse_iso 9 truncated_file true = OutOfFuel
      \/ parse_iso 9 truncated_file true = Raise IndexError
      \/ parse_iso 9 truncated_file true = Raise ValueError).
Proof.
  split; [reflexivity|].
  exact (no_begindata_no_result decimals string iso_to_datetime
           etc_tz_localize 9 truncated_file true eq_refl).
Defined.

Lemma solar_time_is_never_localized_witness :
  exists meta names rest,
    read_header 20 solar_file = Return (meta, names, rest)
    /\ meta_timezone meta = TzStr "TST"
    /\ parse_mesor decimals string iso_to_datetime etc_tz_localize
                   20 solar_file true
       = parse_mesor decimals string iso_to_datetime (fun _ _ => None)
                     20 solar_file true.
Proof.
  eexists. eexists. eexists. split; [vm_compute; reflexivity|].
  split; [reflexivity|].
  refine (solar_time_is_never_localized decimals string iso_to_datetime
            etc_tz_localize (fun _ _ => None) 20 solar_file true _ _ _ _ _).
  - vm_compute; reflexivity.
  - reflexivity.
Defined.
